(** * Tele_Statistics: [ChatStatistics] of [src/chat_statistics/stats.py]

    A shallow embedding of the class [ChatStatistics] and a verification of
    the statements its specification makes about it.

    Conventions of the embedding.
    - A value loaded by [json.load] is a [json] tree.  Numbers are integers
      ([Z]); floating-point numbers are left out.
    - A Python [str] is a [string] holding its UTF-8 encoding, so the
      Arabic question mark U+061F is the two bytes D8 9F and a substring
      test on code points is a substring test on bytes.
    - A Python [dict] loaded from a JSON object keeps insertion order, and
      the code iterates over such objects: it is an association list.
    - An exception is a value: a function that may raise returns a [result].
      A method that mutates [self.chat_data] returns the new state next to
      its result, also when it raises (what was mutated stays mutated).
    - [hazm], [arabic_reshaper], [bidi] and [wordcloud] are external
      libraries: their functions are parameters of the development. *)

From stdpp Require Import base option list gmap strings.
From Stdlib Require Import ZArith Ascii String Lia Sorted.

Local Open Scope Z_scope.
Local Set Warnings "-register-all".

(** ** Values *)

Inductive json : Type :=
| JNull
| JBool (b : bool)
| JInt (n : Z)
| JStr (s : string)
| JList (items : list json)
| JDict (fields : list (string * json)).

(** ** Exceptions *)

Inductive exn : Type := KeyError | TypeError | AttributeError.

Definition exn_name (e : exn) : string :=
  match e with
  | KeyError => "KeyError"
  | TypeError => "TypeError"
  | AttributeError => "AttributeError"
  end.

Inductive result (A : Type) : Type :=
| Ok (a : A)
| Raise (e : exn).
Arguments Ok {A} a.
Arguments Raise {A} e.

Definition bind {A B : Type} (r : result A) (k : A -> result B) : result B :=
  match r with
  | Ok a => k a
  | Raise e => Raise e
  end.

Notation "'let*' x ':=' r 'in' k" := (bind r (fun x => k))
  (at level 10, x name, r at level 200, k at level 200).

Definition is_ok {A : Type} (r : result A) : bool :=
  match r with Ok _ => true | Raise _ => false end.

(** ** Python primitives on loaded values *)

(** [pat in s] for two strings: [pat] occurs in [s] as a substring. *)
Fixpoint str_in (pat s : string) : bool :=
  if String.prefix pat s then true
  else match s with
       | EmptyString => false
       | String _ s' => str_in pat s'
       end.

(** [sep.join(words)]. *)
Fixpoint join (sep : string) (words : list string) : string :=
  match words with
  | [] => ""
  | [w] => w
  | w :: rest => w +:+ sep +:+ join sep rest
  end.

(** The code points of a UTF-8 string: a new one starts at every byte that
    is not a continuation byte (10xxxxxx). *)
Definition is_continuation (c : ascii) : bool :=
  let n := nat_of_ascii c in (Nat.leb 128 n && Nat.ltb n 192)%bool.

Fixpoint code_points_from (cur : string) (s : string) : list string :=
  match s with
  | EmptyString => [cur]
  | String c s' =>
      if is_continuation c then code_points_from (cur +:+ String c "") s'
      else cur :: code_points_from (String c "") s'
  end.

Definition code_points (s : string) : list string :=
  match s with
  | EmptyString => []
  | String c s' => code_points_from (String c "") s'
  end.

Fixpoint assoc_get (k : string) (fields : list (string * json)) : option json :=
  match fields with
  | [] => None
  | (k', v) :: rest => if String.eqb k' k then Some v else assoc_get k rest
  end.

(** [d[k] = v] on the fields of a dict: an existing key keeps its place. *)
Fixpoint assoc_set (k : string) (v : json) (fields : list (string * json))
  : list (string * json) :=
  match fields with
  | [] => [(k, v)]
  | (k', v') :: rest =>
      if String.eqb k' k then (k', v) :: rest
      else (k', v') :: assoc_set k v rest
  end.

(** [o[k]] for a string key [k]. *)
Definition getitem (o : json) (k : string) : result json :=
  match o with
  | JDict fields =>
      match assoc_get k fields with
      | Some v => Ok v
      | None => Raise KeyError
      end
  | _ => Raise TypeError
  end.

(** [o[k] = v] for a string key [k]. *)
Definition setitem (o : json) (k : string) (v : json) : result json :=
  match o with
  | JDict fields => Ok (JDict (assoc_set k v fields))
  | _ => Raise TypeError
  end.

(** [o.get(k)]: only a dict has the method. *)
Definition dict_get (o : json) (k : string) : result json :=
  match o with
  | JDict fields =>
      match assoc_get k fields with
      | Some v => Ok v
      | None => Ok JNull
      end
  | _ => Raise AttributeError
  end.

(** [for x in o]: the elements of a list, the keys of a dict, the
    characters of a string. *)
Definition py_iter (o : json) : result (list json) :=
  match o with
  | JList items => Ok items
  | JDict fields => Ok (map (fun kv => JStr (fst kv)) fields)
  | JStr s => Ok (map JStr (code_points s))
  | _ => Raise TypeError
  end.

Definition is_str_eq (k : string) (x : json) : bool :=
  match x with
  | JStr s => String.eqb s k
  | _ => false
  end.

(** [k in o] for a string [k]. *)
Definition py_in (k : string) (o : json) : result bool :=
  match o with
  | JDict fields => Ok (bool_decide (is_Some (assoc_get k fields)))
  | JList items => Ok (existsb (is_str_eq k) items)
  | JStr s => Ok (str_in k s)
  | _ => Raise TypeError
  end.

(** [acc += v] where [acc] is a [str]. *)
Definition str_iadd (acc : string) (v : json) : result string :=
  match v with
  | JStr s => Ok (acc +:+ s)
  | _ => Raise TypeError
  end.

(** Truth value of a loaded value. *)
Definition truthy (v : json) : bool :=
  match v with
  | JNull => false
  | JBool b => b
  | JInt n => negb (Z.eqb n 0)
  | JStr s => negb (String.eqb s "")
  | JList items => match items with [] => false | _ => true end
  | JDict fields => match fields with [] => false | _ => true end
  end.

(** Dictionary keys.  [None], numbers and strings are hashable; [True] and
    [1] (and [False] and [0]) are the same key; lists and dicts are not
    hashable. *)
Inductive hkey : Type :=
| KNone
| KInt (n : Z)
| KStr (s : string).

Global Instance hkey_eq_dec : EqDecision hkey.
Proof. solve_decision. Defined.

Definition hkey_to_sum (k : hkey) : unit + (Z + string) :=
  match k with
  | KNone => inl tt
  | KInt n => inr (inl n)
  | KStr s => inr (inr s)
  end.

Definition hkey_of_sum (x : unit + (Z + string)) : hkey :=
  match x with
  | inl _ => KNone
  | inr (inl n) => KInt n
  | inr (inr s) => KStr s
  end.

Global Instance hkey_countable : Countable hkey.
Proof.
  apply (inj_countable' hkey_to_sum hkey_of_sum).
  intros []; reflexivity.
Defined.

Definition py_hash (v : json) : result hkey :=
  match v with
  | JNull => Ok KNone
  | JBool b => Ok (KInt (if b then 1 else 0))
  | JInt n => Ok (KInt n)
  | JStr s => Ok (KStr s)
  | JList _ | JDict _ => Raise TypeError
  end.

(** ** [ChatStatistics.rebuild_msg] *)

Fixpoint rebuild_loop (msg_text : string) (sub_messages : list json)
  : result string :=
  match sub_messages with
  | [] => Ok msg_text
  | sub_msg :: rest =>
      match sub_msg with
      | JStr s => rebuild_loop (msg_text +:+ s) rest
      | _ =>
          let* has_text := py_in "text" sub_msg in
          if has_text : bool then
            let* v := getitem sub_msg "text" in
            let* msg_text' := str_iadd msg_text v in
            rebuild_loop msg_text' rest
          else rebuild_loop msg_text rest
      end
  end.

Definition rebuild_msg (sub_messages : json) : result string :=
  let* items := py_iter sub_messages in
  rebuild_loop "" items.


(** ** The state of a [ChatStatistics] object *)

Record ChatStatistics : Type := {
  chat_data : json;
  stop_words : gset string
}.

(** The Arabic question mark U+061F, in UTF-8. *)
Definition arabic_qmark : string :=
  String (ascii_of_nat 216) (String (ascii_of_nat 159) "").

(** [('?' not in sentence) and (U+061F not in sentence)]. *)
Definition no_question_mark (sentence : string) : bool :=
  negb (str_in "?" sentence) && negb (str_in arabic_qmark sentence).

(** [if not isinstance(msg['text'], str): msg['text'] = rebuild_msg(msg['text'])],
    the first statement of [msg_has_question] and of the first loop of
    [get_top_users].  The message is a shared object: its new value is
    returned next to the outcome. *)
Definition store_rebuilt_text (msg : json) : json * result unit :=
  match getitem msg "text" with
  | Raise e => (msg, Raise e)
  | Ok (JStr _) => (msg, Ok tt)
  | Ok sub_messages =>
      match rebuild_msg sub_messages with
      | Raise e => (msg, Raise e)
      | Ok msg_text =>
          match setitem msg "text" (JStr msg_text) with
          | Raise e => (msg, Raise e)
          | Ok msg' => (msg', Ok tt)
          end
      end
  end.

(** [Counter(users)]: the counts in order of first insertion; an element
    equal as a key to an earlier one is counted under the earlier one. *)
Definition same_key (a b : json) : bool :=
  match py_hash a, py_hash b with
  | Ok x, Ok y => bool_decide (x = y)
  | _, _ => false
  end.

Fixpoint count_incr (elem : json) (counts : list (json * Z)) : list (json * Z) :=
  match counts with
  | [] => [(elem, 1)]
  | (k, c) :: rest =>
      if same_key k elem then (k, c + 1) :: rest
      else (k, c) :: count_incr elem rest
  end.

Fixpoint counter_update (elems : list json) (counts : list (json * Z))
  : result (list (json * Z)) :=
  match elems with
  | [] => Ok counts
  | elem :: rest =>
      let* _ := py_hash elem in
      counter_update rest (count_incr elem counts)
  end.

Definition Counter (elems : list json) : result (list (json * Z)) :=
  counter_update elems [].

(** [Counter.most_common(n)] is [heapq.nlargest(n, items, key=count)], that
    is [sorted(items, key=count, reverse=True)[:n]]: a stable sort, so
    equal counts stay in order of first insertion, and nothing for
    [n <= 0]. *)
Fixpoint insert_desc (x : json * Z) (sorted : list (json * Z)) : list (json * Z) :=
  match sorted with
  | [] => [x]
  | y :: rest =>
      if snd y <=? snd x then x :: y :: rest
      else y :: insert_desc x rest
  end.

Definition sort_desc (items : list (json * Z)) : list (json * Z) :=
  foldr insert_desc [] items.

Definition most_common (counts : list (json * Z)) (n : Z) : list (json * Z) :=
  take (Z.to_nat n) (sort_desc counts).

(** [dict(pairs)]: the pairs are entered in order; a key that is already
    there keeps its place and takes the new value. *)
Fixpoint dict_setitem (k : json) (v : Z) (d : list (json * Z)) : list (json * Z) :=
  match d with
  | [] => [(k, v)]
  | (k', v') :: rest =>
      if same_key k' k then (k', v) :: rest
      else (k', v') :: dict_setitem k v rest
  end.

Definition py_dict (pairs : list (json * Z)) : list (json * Z) :=
  fold_left (fun d kv => dict_setitem (fst kv) (snd kv) d) pairs [].

Section Hazm.

(** [hazm.sent_tokenize]. *)
Variable sent_tokenize : string -> list string.

(** [sentences = sent_tokenize(msg['text'])]. *)
Definition sentences_of (msg : json) : result (list string) :=
  let* t := getitem msg "text" in
  match t with
  | JStr s => Ok (sent_tokenize s)
  | _ => Raise TypeError
  end.

(** *** [ChatStatistics.msg_has_question] *)

(** The loop over the sentences: both branches go on to the next
    sentence. *)
Fixpoint question_scan (sentences : list string) : unit :=
  match sentences with
  | [] => tt
  | sentence :: rest =>
      if no_question_mark sentence then question_scan rest
      else question_scan rest
  end.

Definition msg_has_question (msg : json) : json * result bool :=
  let '(msg', r) := store_rebuilt_text msg in
  (msg',
   let* _ := r in
   let* sentences := sentences_of msg' in
   let _ := question_scan sentences in
   Ok true).

(** *** [ChatStatistics.get_top_users] *)

(** The inner loop of the first scan: the first sentence with a question
    mark sets [is_question[msg['id']] = True] and ends the loop. *)
Fixpoint mark_question (msg : json) (sentences : list string)
    (is_question : gmap hkey bool) : result (gmap hkey bool) :=
  match sentences with
  | [] => Ok is_question
  | sentence :: rest =>
      if no_question_mark sentence then mark_question msg rest is_question
      else
        let* id := getitem msg "id" in
        let* k := py_hash id in
        Ok (<[k := true]> is_question)
  end.

(** One iteration of the first loop. *)
Definition index_msg (msg : json) (is_question : gmap hkey bool)
  : json * result (gmap hkey bool) :=
  let '(msg', r) := store_rebuilt_text msg in
  (msg',
   let* _ := r in
   let* sentences := sentences_of msg' in
   mark_question msg' sentences is_question).

(** The first loop: the messages as it leaves them, and the index or the
    exception that ended it. *)
Fixpoint index_loop (msgs : list json) (is_question : gmap hkey bool)
  : list json * result (gmap hkey bool) :=
  match msgs with
  | [] => ([], Ok is_question)
  | msg :: rest =>
      let '(msg', r) := index_msg msg is_question in
      match r with
      | Raise e => (msg' :: rest, Raise e)
      | Ok is_question' =>
          let '(rest', r') := index_loop rest is_question' in
          (msg' :: rest', r')
      end
  end.

(** [is_question[k]] on a [defaultdict(bool)]: a missing key is inserted
    with [False]. *)
Definition defaultdict_getitem (is_question : gmap hkey bool) (k : json)
  : result (bool * gmap hkey bool) :=
  let* h := py_hash k in
  match is_question !! h with
  | Some b => Ok (b, is_question)
  | None => Ok (false, <[h := false]> is_question)
  end.

(** The second loop. *)
Fixpoint vote_loop (msgs : list json) (is_question : gmap hkey bool)
    (users : list json) : result (list json) :=
  match msgs with
  | [] => Ok users
  | msg :: rest =>
      let* reply := dict_get msg "reply_to_message_id" in
      if negb (truthy reply) then vote_loop rest is_question users
      else
        let* reply_id := getitem msg "reply_to_message_id" in
        let* found := defaultdict_getitem is_question reply_id in
        let '(flag, is_question') := found in
        if negb flag then vote_loop rest is_question' users
        else
          let* user := getitem msg "from" in
          vote_loop rest is_question' (users ++ [user])
  end.

(** The messages are objects of the list [self.chat_data['messages']]:
    what the first loop did to them is seen through [self.chat_data].
    Keys of a dict and characters of a string are not mutable. *)
Definition store_messages (data messages : json) (msgs' : list json) : json :=
  match data, messages with
  | JDict fields, JList _ => JDict (assoc_set "messages" (JList msgs') fields)
  | _, _ => data
  end.

Definition get_top_users (self : ChatStatistics) (top_n : Z)
  : ChatStatistics * result (list (json * Z)) :=
  match getitem (chat_data self) "messages" with
  | Raise e => (self, Raise e)
  | Ok messages =>
      match py_iter messages with
      | Raise e => (self, Raise e)
      | Ok msgs =>
          let '(msgs', r) := index_loop msgs ∅ in
          ({| chat_data := store_messages (chat_data self) messages msgs';
              stop_words := stop_words self |},
           let* is_question := r in
           let* users := vote_loop msgs' is_question [] in
           let* counts := Counter users in
           Ok (py_dict (most_common counts top_n)))
      end
  end.

End Hazm.

(** ** Loading and the word cloud *)

(** [str.strip] on the ASCII white space ([\t \n \v \f \r], the separators
    1C to 1F, and the space). *)
Definition is_space (c : ascii) : bool :=
  let n := nat_of_ascii c in
  ((Nat.leb 9 n && Nat.leb n 13) || (Nat.leb 28 n && Nat.leb n 32))%bool.

Fixpoint lstrip (s : string) : string :=
  match s with
  | EmptyString => ""
  | String c s' => if is_space c then lstrip s' else s
  end.

Fixpoint rstrip (s : string) : string :=
  match s with
  | EmptyString => ""
  | String c s' =>
      match rstrip s' with
      | EmptyString => if is_space c then "" else String c ""
      | r => String c r
      end
  end.

Definition strip (s : string) : string := rstrip (lstrip s).

(** What [generate_word_cloud] asks of the [wordcloud] library: the
    arguments of [WordCloud(...)], the text given to [generate] and the
    file given to [to_file]. *)
Record render_call : Type := {
  rc_font_path : string;
  rc_background_color : string;
  rc_max_font_size : Z;
  rc_width : Z;
  rc_height : Z;
  rc_text : string;
  rc_file : string
}.

(** [Path(a) / b] for a file name [b]; [pathlib] drops the [./] that the
    source writes before [BHoma.ttf]. *)
Definition path_join (a b : string) : string := a +:+ "/" +:+ b.

Section WordCloud.

(** [hazm.Normalizer().normalize] and [hazm.word_tokenize]. *)
Variable normalize : string -> string.
Variable word_tokenize : string -> list string.
(** [arabic_reshaper.reshape] and [bidi.algorithm.get_display]. *)
Variable reshape : string -> string.
Variable get_display : string -> string.
(** [src.data.DATA_DIR], of a module that is not part of the sources. *)
Variable DATA_DIR : string.

(** *** [ChatStatistics.__init__]

    [chat_json] stands for what [json.load] returns and [lines] for what
    [readlines] returns on [stopwords.txt]. *)
Definition init (chat_json : json) (lines : list string) : ChatStatistics :=
  let stop_words := map strip lines in
  {| chat_data := chat_json;
     stop_words := list_to_set (map normalize stop_words) |}.

(** *** [ChatStatistics.generate_word_cloud] *)

Definition keep_tokens (stop_words : gset string) (tokens : list string)
  : list string :=
  filter (fun item => item ∉ stop_words) tokens.

Fixpoint cloud_loop (stop_words : gset string) (msgs : list json)
    (text_content : string) : result string :=
  match msgs with
  | [] => Ok text_content
  | msg :: rest =>
      let* t := getitem msg "text" in
      match t with
      | JStr s =>
          let tokens := word_tokenize s in
          let tokens := keep_tokens stop_words tokens in
          cloud_loop stop_words rest (text_content +:+ " " +:+ join " " tokens)
      | _ => cloud_loop stop_words rest text_content
      end
  end.

(** The text before the final normalization and reshaping. *)
Definition load_text_content (self : ChatStatistics) : result string :=
  let* messages := getitem (chat_data self) "messages" in
  let* msgs := py_iter messages in
  cloud_loop (stop_words self) msgs "".

Definition generate_word_cloud (self : ChatStatistics) (output_dir : string)
    (width height max_font_size : Z) : result render_call :=
  let* text_content := load_text_content self in
  let text_content := normalize text_content in
  let text_content := reshape text_content in
  let text_content := get_display text_content in
  Ok {| rc_font_path := path_join DATA_DIR "BHoma.ttf";
        rc_background_color := "white";
        rc_max_font_size := 60;
        rc_width := 450;
        rc_height := 250;
        rc_text := text_content;
        rc_file := path_join output_dir "wordcloud.png" |}.

End WordCloud.

(** ** The data model of the specification

    A message is a record with an integer [id], a string [from], an
    optional integer [reply_to_message_id] and a [text] that is a string
    or a sequence of segments. *)

(** The segments [rebuild_msg] goes through without raising: a string, a
    record whose [text], when it has one, is a string, and a list none of
    whose elements is the string ['text']. *)
Definition rebuildable (x : json) : bool :=
  match x with
  | JStr _ => true
  | JDict fields =>
      match assoc_get "text" fields with
      | None | Some (JStr _) => true
      | Some _ => false
      end
  | JList items => negb (existsb (is_str_eq "text") items)
  | _ => false
  end.

(** What a segment adds, in the words of the specification: a string is
    taken verbatim, a record with a [text] key gives the string under that
    key, anything else is skipped. *)
Definition segment_text (x : json) : string :=
  match x with
  | JStr s => s
  | JDict fields =>
      match assoc_get "text" fields with
      | Some (JStr s) => s
      | _ => ""
      end
  | _ => ""
  end.

Definition concat_segments (items : list json) : string :=
  foldr String.append "" (map segment_text items).

Definition wf_text (t : json) : bool :=
  match t with
  | JStr _ => true
  | JList items => forallb rebuildable items
  | _ => false
  end.

(** The string a well-formed text stands for. *)
Definition flat_text (t : json) : string :=
  match t with
  | JStr s => s
  | JList items => concat_segments items
  | _ => ""
  end.

Definition wf_message (msg : json) : bool :=
  match msg with
  | JDict fields =>
      match assoc_get "text" fields with
      | Some t => wf_text t
      | None => false
      end
      && match assoc_get "id" fields with
         | Some (JInt _) => true
         | _ => false
         end
      && match assoc_get "from" fields with
         | Some (JStr _) => true
         | _ => false
         end
      && match assoc_get "reply_to_message_id" fields with
         | None | Some (JInt _) => true
         | Some _ => false
         end
  | _ => false
  end.

Definition wf_export (data : json) : bool :=
  match data with
  | JDict fields =>
      match assoc_get "messages" fields with
      | Some (JList msgs) => forallb wf_message msgs
      | _ => false
      end
  | _ => false
  end.

(** [r] is an exception of the class called [name]. *)
Definition fails_with {A : Type} (name : string) (r : result A) : Prop :=
  exists e, r = Raise e /\ exn_name e = name.

(** ** Definitions used to state the properties *)

(** The text of a message as a string: the string itself, or what
    [rebuild_msg] makes of a text that is not a string. *)
Definition msg_text (msg : json) : result string :=
  let* t := getitem msg "text" in
  match t with
  | JStr s => Ok s
  | _ => rebuild_msg t
  end.

(** A message whose text, when it is not a string and can be rebuilt, is
    replaced by the rebuilt string; nothing else changes. *)
Definition rebuilt (msg : json) : json :=
  match msg with
  | JDict fields =>
      match assoc_get "text" fields with
      | Some (JStr _) | None => msg
      | Some sub_messages =>
          match rebuild_msg sub_messages with
          | Ok msg_text => JDict (assoc_set "text" (JStr msg_text) fields)
          | Raise _ => msg
          end
      end
  | _ => msg
  end.

(** The key under which a message is entered in the question index. *)
Definition msg_key (msg : json) : result hkey :=
  let* id := getitem msg "id" in
  py_hash id.

(** Some sentence has a question mark, ASCII or Arabic. *)
Definition has_question (sentences : list string) : bool :=
  existsb (fun sentence => negb (no_question_mark sentence)) sentences.

(** [msg] is entered in the question index under the key [h]: its text has
    a sentence with a question mark and its [id] hashes to [h]. *)
Definition asks (sent_tokenize : string -> list string) (h : hkey) (msg : json)
  : bool :=
  match msg_text msg, msg_key msg with
  | Ok s, Ok k => has_question (sent_tokenize s) && bool_decide (k = h)
  | _, _ => false
  end.

(** What a [defaultdict(bool)] answers for a key. *)
Definition flagged (is_question : gmap hkey bool) (h : hkey) : bool :=
  default false (is_question !! h).

(** What one iteration of the second loop of [get_top_users] adds to
    [users]: the sender of a message that answers a question. *)
Definition vote (is_question : gmap hkey bool) (msg : json) : result (option json) :=
  let* reply := dict_get msg "reply_to_message_id" in
  if negb (truthy reply) then Ok None
  else
    let* reply_id := getitem msg "reply_to_message_id" in
    let* h := py_hash reply_id in
    if flagged is_question h
    then (let* user := getitem msg "from" in Ok (Some user))
    else Ok None.

Fixpoint votes (is_question : gmap hkey bool) (msgs : list json)
  : result (list json) :=
  match msgs with
  | [] => Ok []
  | msg :: rest =>
      let* v := vote is_question msg in
      let* vs := votes is_question rest in
      Ok (option_list v ++ vs)
  end.

(** Counts that do not increase along the list. *)
Definition by_count_desc (x y : json * Z) : Prop := snd y <= snd x.

(** The key of a hashable value. *)
Definition hk (v : json) : hkey :=
  match py_hash v with
  | Ok h => h
  | Raise _ => KNone
  end.

(** The keys of the entries are hashable and differ from one another. *)
Definition distinct_keys (entries : list (json * Z)) : Prop :=
  Forall (fun kv => is_ok (py_hash (fst kv)) = true) entries /\
  NoDup ((fun kv => hk (fst kv)) <$> entries).

Section TextBlob.

Variable word_tokenize : string -> list string.

(** What one message text adds to the text of the word cloud. *)
Definition message_words (stop_words : gset string) (s : string) : string :=
  " " +:+ join " " (keep_tokens stop_words (word_tokenize s)).

(** The text built from the texts of a sequence of messages. *)
Definition text_blob (stop_words : gset string) (texts : list string) : string :=
  foldr (fun s rest => message_words stop_words s +:+ rest) "" texts.

End TextBlob.

(** The texts of the messages whose text is a string. *)
Definition plain_text (msg : json) : option string :=
  match getitem msg "text" with
  | Ok (JStr s) => Some s
  | _ => None
  end.

Definition plain_texts (msgs : list json) : list string := omap plain_text msgs.

(** The texts of all messages, rebuilt where they are not strings. *)
Definition any_text (msg : json) : option string :=
  match msg_text msg with
  | Ok s => Some s
  | Raise _ => None
  end.

Definition all_texts (msgs : list json) : list string := omap any_text msgs.

(** ** Instances of the external functions, and examples *)

(** A text is its own one sentence, and a text without characters has no
    sentence: the simplest sentence tokenizer, used to run the code on
    examples. *)
Definition one_sentence (text : string) : list string :=
  if String.eqb text "" then [] else [text].

(** The words between white space: the simplest word tokenizer, used to
    run the code on examples. *)
Fixpoint split_from (cur s : string) : list string :=
  match s with
  | EmptyString => if String.eqb cur "" then [] else [cur]
  | String c s' =>
      if is_space c then
        if String.eqb cur "" then split_from "" s' else cur :: split_from "" s'
      else split_from (cur +:+ String c "") s'
  end.

Definition space_words (s : string) : list string := split_from "" s.

(** One step of the character translation of [hazm]'s [Normalizer], which
    by default writes the digits 0 to 9 as the Persian digits U+06F0 to
    U+06F9 (in UTF-8 the byte DB and then B0 to B9); every other character
    is left as it is.  Used to run the code on examples. *)
Fixpoint persian_digits (s : string) : string :=
  match s with
  | EmptyString => ""
  | String c s' =>
      let n := nat_of_ascii c in
      if (Nat.leb 48 n && Nat.leb n 57)%bool then
        String (ascii_of_nat 219)
          (String (ascii_of_nat (176 + (n - 48))) (persian_digits s'))
      else String c (persian_digits s')
  end.

(** The Persian digit one, U+06F1. *)
Definition persian_one : string :=
  String (ascii_of_nat 219) (String (ascii_of_nat 177) "").

(** A small export used in examples: a question, a segmented question,
    an answer to each, and an answer to a message that does not exist. *)
Definition example_messages : list json :=
  [JDict [("id", JInt 1); ("from", JStr "A"); ("text", JStr "Is this true?")];
   JDict [("id", JInt 2); ("from", JStr "B"); ("reply_to_message_id", JInt 1);
          ("text", JStr "yes it is")];
   JDict [("id", JInt 3); ("from", JStr "C");
          ("text", JList [JStr "and the ";
                          JDict [("type", JStr "bold"); ("text", JStr "weather?")]])];
   JDict [("id", JInt 4); ("from", JStr "B"); ("reply_to_message_id", JInt 3);
          ("text", JStr "sunny")]].

Definition example_dangling : json :=
  JDict [("id", JInt 5); ("from", JStr "D"); ("reply_to_message_id", JInt 99);
         ("text", JStr "what?")].

Definition example_export : json :=
  JDict [("name", JStr "Python_OG");
         ("messages", JList (example_messages ++ [example_dangling]))].

Definition example_stats : ChatStatistics :=
  {| chat_data := example_export; stop_words := {["it"; "the"]} |}.

(** The line feed that ends a line of [stopwords.txt]. *)
Definition newline : string := String (ascii_of_nat 10) "".

(** An export whose second message answers the question of the first and
    has no [from]. *)
Definition example_question : json :=
  JDict [("id", JInt 1); ("from", JStr "A"); ("text", JStr "Is this true?")].

Definition example_anonymous_reply : json :=
  JDict [("id", JInt 2); ("reply_to_message_id", JInt 1); ("text", JStr "yes")].

Definition example_no_from : ChatStatistics :=
  {| chat_data := JDict [("messages", JList ([example_question] ++
                                              example_anonymous_reply :: []))];
     stop_words := ∅ |}.

(** An export whose first message is segmented and whose second message
    has no [text]. *)
Definition example_segmented : json :=
  JDict [("id", JInt 1); ("from", JStr "A");
         ("text", JList [JStr "so "; JDict [("type", JStr "italic"); ("text", JStr "what?")]])].

Definition example_no_text : json :=
  JDict [("id", JInt 2); ("from", JStr "B"); ("reply_to_message_id", JInt 1)].

Definition example_after : json :=
  JDict [("id", JInt 3); ("from", JStr "C"); ("text", JList [JStr "later"])].

Definition example_broken : ChatStatistics :=
  {| chat_data := JDict [("messages", JList ([example_segmented] ++
                                              example_no_text :: [example_after]))];
     stop_words := ∅ |}.

(** An export whose question has the id 0. *)
Definition example_question_zero : json :=
  JDict [("id", JInt 0); ("from", JStr "A"); ("text", JStr "anyone?")].

Definition example_reply_zero : json :=
  JDict [("id", JInt 1); ("from", JStr "B"); ("reply_to_message_id", JInt 0);
         ("text", JStr "me")].

Definition example_zero : ChatStatistics :=
  {| chat_data := JDict [("messages", JList ([example_question_zero] ++
                                              example_reply_zero :: []))];
     stop_words := ∅ |}.

(** A question without [id], after a well-formed message. *)
Definition example_no_id : json :=
  JDict [("from", JStr "B"); ("text", JList [JStr "who "; JStr "knows?"])].

Definition example_no_id_stats : ChatStatistics :=
  {| chat_data := JDict [("messages", JList ([example_segmented] ++
                                              example_no_id :: [example_after]))];
     stop_words := ∅ |}.

(** The number of elements of [users] that are, as keys, the key [h]. *)
Definition count_key (h : hkey) (users : list json) : Z :=
  Z.of_nat (List.length (filter (fun u => hk u = h) users)).

(** The count entered under the key [h], 0 when there is none. *)
Fixpoint count_of (h : hkey) (counts : list (json * Z)) : Z :=
  match counts with
  | [] => 0
  | (k, c) :: rest => if decide (hk k = h) then c else count_of h rest
  end.

(** An export whose only reply stands before the question it answers. *)
Definition example_early_reply : json :=
  JDict [("id", JInt 1); ("from", JStr "B"); ("reply_to_message_id", JInt 2);
         ("text", JStr "forty-two")].

Definition example_late_question : json :=
  JDict [("id", JInt 2); ("from", JStr "A"); ("text", JStr "what is the answer?")].

Definition example_reversed : ChatStatistics :=
  {| chat_data := JDict [("messages", JList [example_early_reply;
                                              example_late_question])];
     stop_words := ∅ |}.

(** Some character of the string is white space. *)
Fixpoint has_space (s : string) : bool :=
  match s with
  | EmptyString => false
  | String c s' => is_space c || has_space s'
  end.


(** An export in which two messages carry the same id and only the second
    asks something. *)
Definition example_shared_id : list json :=
  [JDict [("id", JInt 7); ("from", JStr "A"); ("text", JStr "hello")];
   JDict [("id", JInt 7); ("from", JStr "B"); ("text", JStr "anyone there?")]].

(** An export whose only vote comes from a sender that is a list. *)
Definition example_list_sender : ChatStatistics :=
  {| chat_data := JDict [("messages", JList [
       example_question;
       JDict [("id", JInt 2); ("from", JList [JStr "B"]);
              ("reply_to_message_id", JInt 1); ("text", JStr "yes")]])];
     stop_words := ∅ |}.

(** The white space outside ASCII, in UTF-8: U+0085, U+00A0, U+1680,
    U+2000 to U+200A, U+2028, U+2029, U+202F, U+205F and U+3000. *)
Definition utf8 (bytes : list nat) : string :=
  foldr (fun b s => String (ascii_of_nat b) s) "" bytes.

Definition unicode_spaces : list string :=
  map utf8 ([[194; 133]; [194; 160]; [225; 154; 128];
            [226; 128; 128]; [226; 128; 129]; [226; 128; 130]; [226; 128; 131];
            [226; 128; 132]; [226; 128; 133]; [226; 128; 134]; [226; 128; 135];
            [226; 128; 136]; [226; 128; 137]; [226; 128; 138];
            [226; 128; 168]; [226; 128; 169]; [226; 128; 175];
            [226; 129; 159]; [227; 128; 128]])%nat.

(** The string has no white space at all, so that [str.strip], which the
    embedding follows on ASCII only, leaves it as it is. *)
Definition no_white_space (s : string) : bool :=
  negb (has_space s) && negb (existsb (fun ws => str_in ws s) unicode_spaces).

(** * Properties *)

(** ** Records *)

Lemma assoc_get_set_eq k v fields :
  assoc_get k (assoc_set k v fields) = Some v.
Proof.
  induction fields as [|[k' v'] rest IH]; simpl.
  - by rewrite String.eqb_refl.
  - destruct (String.eqb k' k) eqn:E; simpl; rewrite E; done.
Qed.

Lemma assoc_get_set_ne k k' v fields :
  k <> k' -> assoc_get k' (assoc_set k v fields) = assoc_get k' fields.
Proof.
  intros Hne. induction fields as [|[k0 v0] rest IH]; simpl.
  - destruct (String.eqb k k') eqn:E; [|done].
    apply String.eqb_eq in E. done.
  - destruct (String.eqb k0 k) eqn:E; simpl.
    + apply String.eqb_eq in E. subst k0.
      destruct (String.eqb k k') eqn:E'; [|done].
      apply String.eqb_eq in E'. done.
    + by rewrite IH.
Qed.

Lemma assoc_set_same k v fields :
  assoc_get k fields = Some v -> assoc_set k v fields = fields.
Proof.
  induction fields as [|[k' v'] rest IH]; simpl; [done|].
  destruct (String.eqb k' k) eqn:E.
  - by intros [= ->].
  - intros H. by rewrite IH.
Qed.

Lemma string_append_cons x (a b : string) : String x a +:+ b = String x (a +:+ b).
Proof. reflexivity. Qed.

Lemma string_append_assoc (a b c : string) : (a +:+ b) +:+ c = a +:+ (b +:+ c).
Proof.
  induction a as [|x a IH]; [done|].
  rewrite !string_append_cons. by rewrite IH.
Qed.

Lemma string_append_empty_r (a : string) : a +:+ "" = a.
Proof.
  induction a as [|x a IH]; [done|].
  rewrite string_append_cons. by rewrite IH.
Qed.

(** ** [rebuild_msg] *)

Lemma rebuild_loop_rebuildable items : forall acc,
  forallb rebuildable items = true ->
  rebuild_loop acc items = Ok (acc +:+ concat_segments items).
Proof.
  induction items as [|x rest IH]; intros acc Hwf.
  - simpl. by rewrite string_append_empty_r.
  - simpl in Hwf. apply andb_prop in Hwf as [Hx Hrest].
    unfold concat_segments. simpl. fold (concat_segments rest).
    destruct x as [| b | n | s | items | fields]; simpl in Hx; try done.
    + rewrite (IH _ Hrest). by rewrite string_append_assoc.
    + simpl. apply negb_true_iff in Hx. rewrite Hx. simpl. apply (IH _ Hrest).
    + simpl. destruct (assoc_get "text" fields) as [v|] eqn:E.
      * rewrite bool_decide_eq_true_2 by eauto. simpl.
        destruct v; try done. simpl.
        rewrite (IH _ Hrest). by rewrite string_append_assoc.
      * rewrite bool_decide_eq_false_2 by (intros [? ?]; done). simpl.
        apply (IH _ Hrest).
Qed.

Lemma rebuild_loop_not_rebuildable items : forall acc,
  forallb rebuildable items = false ->
  rebuild_loop acc items = Raise TypeError.
Proof.
  induction items as [|x rest IH]; intros acc Hwf; [done|].
  simpl in Hwf. apply andb_false_iff in Hwf.
  destruct x as [| b | n | s | items | fields]; simpl; try done.
  - destruct Hwf as [Hx|Hrest]; [done|]. by apply IH.
  - destruct (existsb (is_str_eq "text") items) eqn:E; simpl; [done|].
    destruct Hwf as [Hx|Hrest]; [|by apply IH].
    simpl in Hx. by rewrite E in Hx.
  - destruct (assoc_get "text" fields) as [v|] eqn:E.
    + rewrite bool_decide_eq_true_2 by eauto. simpl.
      destruct v; simpl; try done.
      destruct Hwf as [Hx|Hrest]; [|by apply IH].
      simpl in Hx. by rewrite E in Hx.
    + rewrite bool_decide_eq_false_2 by (intros [? ?]; done). simpl.
      destruct Hwf as [Hx|Hrest]; [|by apply IH].
      simpl in Hx. by rewrite E in Hx.
Qed.

Lemma rebuild_msg_wf_list items :
  forallb rebuildable items = true ->
  rebuild_msg (JList items) = Ok (concat_segments items).
Proof. intros H. unfold rebuild_msg. simpl. by rewrite rebuild_loop_rebuildable. Qed.

Example rebuild_msg_spec_example :
  rebuild_msg (JList [JDict [("text", JStr "a")]; JStr "b";
                      JDict [("other", JInt 1)]; JStr "c"]) = Ok "abc".
Proof. reflexivity. Qed.

(** ** The rebuilding of a message's text in place *)

(** Case analysis on the outcome of the call of [rebuild_msg] in the goal. *)
Ltac case_rebuild :=
  match goal with
  | |- context [rebuild_msg ?t] => destruct (rebuild_msg t)
  end.

Lemma store_rebuilt_text_fst msg : fst (store_rebuilt_text msg) = rebuilt msg.
Proof.
  unfold store_rebuilt_text, rebuilt.
  destruct msg as [| b | n | s | items | fields]; simpl; try done.
  destruct (assoc_get "text" fields) as [t|] eqn:E; [|done].
  destruct t; try done; simpl;
    case_rebuild;
    done.
Qed.

Lemma store_rebuilt_text_snd msg :
  snd (store_rebuilt_text msg) = (let* _ := msg_text msg in Ok tt).
Proof.
  unfold store_rebuilt_text, msg_text.
  destruct msg as [| b | n | s | items | fields]; simpl; try done.
  destruct (assoc_get "text" fields) as [t|] eqn:E; [|done].
  destruct t; try done; simpl;
    case_rebuild;
    done.
Qed.

Lemma store_rebuilt_text_eq msg :
  store_rebuilt_text msg = (rebuilt msg, let* _ := msg_text msg in Ok tt).
Proof.
  rewrite <- store_rebuilt_text_fst, <- store_rebuilt_text_snd.
  by destruct (store_rebuilt_text msg).
Qed.

Lemma rebuilt_text msg s :
  msg_text msg = Ok s -> getitem (rebuilt msg) "text" = Ok (JStr s).
Proof.
  unfold msg_text, rebuilt.
  destruct msg as [| b | n | s0 | items | fields]; simpl; try done.
  destruct (assoc_get "text" fields) as [t|] eqn:E; [|done]. simpl.
  destruct t; simpl; intros H; rewrite ?H; simpl;
    rewrite ?assoc_get_set_eq, ?E; try done.
  by injection H as ->.
Qed.

Lemma rebuilt_other_field msg k :
  k <> "text" -> getitem (rebuilt msg) k = getitem msg k.
Proof.
  intros Hk. unfold rebuilt.
  destruct msg as [| b | n | s0 | items | fields]; try done.
  destruct (assoc_get "text" fields) as [t|] eqn:E; [|done].
  destruct t; try done;
    case_rebuild;
    try done; simpl; by rewrite assoc_get_set_ne.
Qed.

Lemma rebuilt_other_get msg k :
  k <> "text" -> dict_get (rebuilt msg) k = dict_get msg k.
Proof.
  intros Hk. unfold rebuilt.
  destruct msg as [| b | n | s0 | items | fields]; try done.
  destruct (assoc_get "text" fields) as [t|] eqn:E; [|done].
  destruct t; try done;
    case_rebuild;
    try done; simpl; by rewrite assoc_get_set_ne.
Qed.

Lemma rebuilt_key msg : msg_key (rebuilt msg) = msg_key msg.
Proof. unfold msg_key. by rewrite rebuilt_other_field. Qed.

Lemma rebuilt_str msg s : getitem msg "text" = Ok (JStr s) -> rebuilt msg = msg.
Proof.
  unfold rebuilt. destruct msg as [| b | n | s0 | items | fields]; try done.
  simpl. destruct (assoc_get "text" fields) as [t|]; [|done].
  by intros [= ->].
Qed.

Lemma msg_text_wf msg t :
  getitem msg "text" = Ok t -> wf_text t = true -> msg_text msg = Ok (flat_text t).
Proof.
  intros Ht Hwf. unfold msg_text. rewrite Ht. simpl.
  destruct t; try done. simpl in *. by apply rebuild_msg_wf_list.
Qed.

Lemma sentences_of_rebuilt sent_tokenize msg s :
  msg_text msg = Ok s ->
  sentences_of sent_tokenize (rebuilt msg) = Ok (sent_tokenize s).
Proof. intros H. unfold sentences_of. by rewrite (rebuilt_text _ _ H). Qed.

(** ** The question index *)

Section QuestionIndex.

Variable sent_tokenize : string -> list string.

Lemma mark_question_eq msg sentences (is_question : gmap hkey bool) :
  mark_question msg sentences is_question =
  if has_question sentences
  then (let* k := msg_key msg in Ok (<[k := true]> is_question))
  else Ok is_question.
Proof.
  induction sentences as [|sentence rest IH]; simpl; [done|].
  destruct (no_question_mark sentence); simpl; [done|].
  unfold msg_key. destruct (getitem msg "id"); simpl; [|done].
  by destruct (py_hash a).
Qed.

Lemma index_msg_eq msg (is_question : gmap hkey bool) :
  index_msg sent_tokenize msg is_question =
  (rebuilt msg,
   let* s := msg_text msg in
   if has_question (sent_tokenize s)
   then (let* k := msg_key msg in Ok (<[k := true]> is_question))
   else Ok is_question).
Proof.
  unfold index_msg. rewrite store_rebuilt_text_eq.
  destruct (msg_text msg) as [s|e] eqn:E; simpl; [|done].
  rewrite (sentences_of_rebuilt _ _ _ E). simpl.
  by rewrite mark_question_eq, rebuilt_key.
Qed.

Lemma index_msg_lookup msg (is_question is_question' : gmap hkey bool) msg' h :
  index_msg sent_tokenize msg is_question = (msg', Ok is_question') ->
  is_question' !! h =
  if asks sent_tokenize h msg then Some true else is_question !! h.
Proof.
  rewrite index_msg_eq. intros [= _ H]. unfold asks.
  destruct (msg_text msg) as [s|e]; simpl in H; [|done].
  destruct (has_question (sent_tokenize s)); simpl.
  - destruct (msg_key msg) as [k|]; simpl in H; [|done].
    injection H as <-. case_bool_decide.
    + subst. by rewrite lookup_insert_eq.
    + by rewrite lookup_insert_ne.
  - injection H as <-. by destruct (msg_key msg).
Qed.

(** After a first loop that did not raise, every message has been
    rebuilt, and a key is in the index, with [True], exactly when some
    message asks under it. *)
Lemma index_loop_ok msgs : forall (is_question is_question' : gmap hkey bool) msgs',
  index_loop sent_tokenize msgs is_question = (msgs', Ok is_question') ->
  msgs' = map rebuilt msgs /\
  forall h, is_question' !! h =
            if existsb (asks sent_tokenize h) msgs then Some true
            else is_question !! h.
Proof.
  induction msgs as [|msg rest IH]; intros iq iq' msgs'; simpl.
  - by intros [= <- <-].
  - destruct (index_msg sent_tokenize msg iq) as [msg1 [iq1|e]] eqn:E; [|done].
    destruct (index_loop sent_tokenize rest iq1) as [rest1 r1] eqn:E1.
    intros [= <- ->].
    destruct (IH _ _ _ E1) as [-> Hlook].
    split.
    + f_equal. pose proof (index_msg_eq msg iq) as H.
      rewrite E in H. by injection H.
    + intros h. rewrite Hlook.
      rewrite (index_msg_lookup _ _ _ _ h E).
      destruct (asks sent_tokenize h msg); simpl; [|done].
      by destruct (existsb _ rest).
Qed.

Lemma index_loop_raise msgs : forall (is_question : gmap hkey bool) msgs' e,
  index_loop sent_tokenize msgs is_question = (msgs', Raise e) ->
  List.length msgs' = List.length msgs.
Proof.
  induction msgs as [|msg rest IH]; intros iq msgs' e; simpl; [done|].
  destruct (index_msg sent_tokenize msg iq) as [msg1 [iq1|e1]] eqn:E.
  - destruct (index_loop sent_tokenize rest iq1) as [rest1 r1] eqn:E1.
    intros [= <- ->]. simpl. f_equal. by eapply IH.
  - by intros [= <- _].
Qed.

End QuestionIndex.

Lemma has_question_iff sentences :
  has_question sentences = true <->
  exists sentence, sentence ∈ sentences /\
    (str_in "?" sentence = true \/ str_in arabic_qmark sentence = true).
Proof.
  unfold has_question. rewrite existsb_exists. split.
  - intros (sentence & Hin & Hq). exists sentence.
    split; [by apply list_elem_of_In|].
    unfold no_question_mark in Hq.
    destruct (str_in "?" sentence); [by left|].
    destruct (str_in arabic_qmark sentence); [by right|done].
  - intros (sentence & Hin & Hq). exists sentence.
    split; [by apply list_elem_of_In|].
    unfold no_question_mark. by destruct Hq as [-> | ->]; simpl; rewrite ?andb_false_r.
Qed.

(** ** [msg_has_question] *)

(** C1.  For every message record, one whose [text] is a string or a
    sequence of segments, [msg_has_question] returns [True], whatever the
    sentences of the text are: also when no sentence has a question mark.
    And on no input at all does it return [False]. *)
Theorem msg_has_question_always_true
    (sent_tokenize : string -> list string) (msg : json) :
  (forall t, getitem msg "text" = Ok t -> wf_text t = true ->
     snd (msg_has_question sent_tokenize msg) = Ok true) /\
  (forall b, snd (msg_has_question sent_tokenize msg) = Ok b -> b = true).
Proof.
  unfold msg_has_question. rewrite store_rebuilt_text_eq. simpl. split.
  - intros t Ht Hwf.
    pose proof (msg_text_wf _ _ Ht Hwf) as Htext.
    rewrite Htext. simpl.
    by rewrite (sentences_of_rebuilt _ _ _ Htext).
  - intros b. destruct (msg_text msg); simpl; [|done].
    destruct (sentences_of sent_tokenize (rebuilt msg)); simpl; [|done].
    by intros [= <-].
Qed.

Lemma msg_has_question_always_true_witness :
  has_question (one_sentence "no question here") = false /\
  snd (msg_has_question one_sentence
         (JDict [("id", JInt 7);
                 ("text", JList [JStr "no question ";
                                 JDict [("type", JStr "bold");
                                        ("text", JStr "here")]])]))
  = Ok true.
Proof.
  split; [reflexivity|].
  apply (proj1 (msg_has_question_always_true one_sentence _)
           (JList [JStr "no question ";
                   JDict [("type", JStr "bold"); ("text", JStr "here")]]));
    reflexivity.
Defined.

(** ** [rebuild_msg] on a sequence *)

(** C9, as the code has it.  On a sequence of strings, records whose
    [text], when present, is a string, and lists without the element
    ['text'], [rebuild_msg] returns the in-order concatenation of the
    strings and of the [text] values, skipping the records without [text]
    and those lists; on a sequence with any other element it raises
    [TypeError]; and the example of the specification gives ["abc"]. *)
Theorem rebuild_msg_concatenates :
  (forall items, forallb rebuildable items = true ->
     rebuild_msg (JList items) = Ok (concat_segments items)) /\
  (forall items, forallb rebuildable items = false ->
     rebuild_msg (JList items) = Raise TypeError) /\
  rebuild_msg (JList [JDict [("text", JStr "a")]; JStr "b";
                      JDict [("other", JInt 1)]; JStr "c"]) = Ok "abc".
Proof.
  split; [apply rebuild_msg_wf_list|]. split; [|reflexivity].
  intros items H. unfold rebuild_msg. simpl.
  by apply rebuild_loop_not_rebuildable.
Qed.

Lemma rebuild_msg_concatenates_witness :
  rebuild_msg (JList [JStr "x"; JDict [("href", JStr "u")]; JList [JInt 3];
                      JDict [("text", JStr "y")]]) = Ok "xy" /\
  rebuild_msg (JList [JStr "x"; JBool true]) = Raise TypeError.
Proof.
  split.
  - apply (proj1 rebuild_msg_concatenates
             [JStr "x"; JDict [("href", JStr "u")]; JList [JInt 3];
              JDict [("text", JStr "y")]]).
    reflexivity.
  - apply (proj1 (proj2 rebuild_msg_concatenates) [JStr "x"; JBool true]).
    reflexivity.
Defined.

(** C9 as the specification states it fails on a sequence with a number:
    the number is not skipped, the test ['text' in 1] raises. *)
Lemma rebuild_msg_number_not_skipped :
  rebuild_msg (JList [JInt 1; JStr "b"])
  <> Ok (concat_segments [JInt 1; JStr "b"]).
Proof. discriminate. Qed.

(** ** The options of the rendering *)

(** C5.  Whatever [width], [height] and [max_font_size] the caller gives,
    the word cloud is asked for with width 450, height 250 and
    [max_font_size] 60: the call does not depend on the three arguments. *)
Theorem generate_word_cloud_fixed_options
    (normalize : string -> string) (word_tokenize : string -> list string)
    (reshape get_display : string -> string) (DATA_DIR : string)
    (self : ChatStatistics) (output_dir : string)
    (width height max_font_size : Z) (rc : render_call) :
  generate_word_cloud normalize word_tokenize reshape get_display DATA_DIR
    self output_dir width height max_font_size = Ok rc ->
  rc_width rc = 450 /\ rc_height rc = 250 /\ rc_max_font_size rc = 60 /\
  forall width' height' max_font_size',
    generate_word_cloud normalize word_tokenize reshape get_display DATA_DIR
      self output_dir width' height' max_font_size' = Ok rc.
Proof.
  unfold generate_word_cloud.
  destruct (load_text_content word_tokenize self); simpl; [|done].
  by intros [= <-].
Qed.

Lemma generate_word_cloud_fixed_options_witness :
  exists rc,
    generate_word_cloud persian_digits space_words id id "data"
      example_stats "out" 1024 768 120 = Ok rc /\
    rc_width rc = 450 /\ rc_height rc = 250 /\ rc_max_font_size rc = 60.
Proof.
  eexists. split; [reflexivity|].
  destruct (generate_word_cloud_fixed_options persian_digits space_words id id
              "data" example_stats "out" 1024 768 120 _ eq_refl)
    as (Hwidth & Hheight & Hfont & _).
  by rewrite Hwidth, Hheight, Hfont.
Defined.

(** ** The text of the word cloud *)

Section CloudText.

Variable word_tokenize : string -> list string.

Lemma cloud_loop_blob stop_words msgs : forall acc,
  Forall (fun msg => is_ok (getitem msg "text") = true) msgs ->
  cloud_loop word_tokenize stop_words msgs acc =
  Ok (acc +:+ text_blob word_tokenize stop_words (plain_texts msgs)).
Proof.
  induction msgs as [|msg rest IH]; intros acc Hok; simpl.
  - by rewrite string_append_empty_r.
  - inversion Hok as [|? ? Hmsg Hrest]; subst.
    unfold plain_texts. simpl. fold (plain_texts rest). unfold plain_text.
    destruct (getitem msg "text") as [t|e]; [|done]. simpl.
    destruct t; try apply (IH _ Hrest).
    rewrite (IH _ Hrest). simpl. unfold message_words.
    by rewrite !string_append_assoc.
Qed.

(** A message whose text is not a string leaves the text as it is. *)
Lemma cloud_loop_skip stop_words pre msg post t : forall acc,
  getitem msg "text" = Ok t ->
  (forall s, t <> JStr s) ->
  cloud_loop word_tokenize stop_words (pre ++ msg :: post) acc =
  cloud_loop word_tokenize stop_words (pre ++ post) acc.
Proof.
  intros acc Ht Hns. revert acc.
  induction pre as [|m pre IH]; intros acc; simpl.
  - rewrite Ht. simpl. destruct t; try done. by destruct (Hns s).
  - destruct (getitem m "text") as [t'|]; [|done]. simpl.
    destruct t'; apply IH.
Qed.

End CloudText.

(** ** What the question index holds *)

Lemma asks_key sent_tokenize h msg :
  asks sent_tokenize h msg = true -> msg_key msg = Ok h.
Proof.
  unfold asks. destruct (msg_text msg); [|done].
  destruct (msg_key msg); [|done].
  intros [_ H]%andb_prop. by apply bool_decide_eq_true in H as ->.
Qed.

Lemma asks_eq sent_tokenize h msg s :
  msg_text msg = Ok s -> msg_key msg = Ok h ->
  asks sent_tokenize h msg = has_question (sent_tokenize s).
Proof.
  intros Hs Hk. unfold asks. rewrite Hs, Hk.
  rewrite bool_decide_eq_true_2 by done. apply andb_true_r.
Qed.

Lemma existsb_asks_unique sent_tokenize h (msgs : list json) i msg :
  msgs !! i = Some msg ->
  (forall j other, msgs !! j = Some other -> msg_key other = Ok h -> j = i) ->
  existsb (asks sent_tokenize h) msgs = asks sent_tokenize h msg.
Proof.
  intros Hi Huniq.
  destruct (asks sent_tokenize h msg) eqn:Hmsg.
  - apply existsb_exists. exists msg. split; [|done].
    apply list_elem_of_In. by eapply list_elem_of_lookup_2.
  - destruct (existsb (asks sent_tokenize h) msgs) eqn:Hex; [|done].
    apply existsb_exists in Hex as (other & Hin & Hother).
    apply list_elem_of_In, list_elem_of_lookup_1 in Hin as [j Hj].
    pose proof (Huniq j other Hj (asks_key _ _ _ Hother)) as ->.
    rewrite Hi in Hj. injection Hj as <-. congruence.
Qed.

(** Without any assumption on the ids: a key is mapped to [True] exactly
    when some message with that key has a sentence with a question mark,
    and no key is mapped to [False]. *)
Lemma question_index_general sent_tokenize msgs msgs'
    (is_question : gmap hkey bool) h :
  index_loop sent_tokenize msgs ∅ = (msgs', Ok is_question) ->
  (is_question !! h = Some true <->
   exists msg s, msg ∈ msgs /\ msg_key msg = Ok h /\ msg_text msg = Ok s /\
                 has_question (sent_tokenize s) = true) /\
  is_question !! h <> Some false.
Proof.
  intros Hloop. destruct (index_loop_ok _ _ _ _ _ Hloop) as [_ Hlook].
  rewrite Hlook, lookup_empty. split; [|by destruct (existsb _ msgs)].
  split.
  - destruct (existsb (asks sent_tokenize h) msgs) eqn:E; [|done].
    intros _. apply existsb_exists in E as (msg & Hin & Hasks).
    pose proof (asks_key _ _ _ Hasks) as Hkey.
    unfold asks in Hasks. rewrite Hkey in Hasks.
    destruct (msg_text msg) as [s|] eqn:Hs; [|done].
    apply andb_prop in Hasks as [Hq _].
    exists msg, s. split; [by apply list_elem_of_In|done].
  - intros (msg & s & Hin & Hkey & Hs & Hq).
    assert (existsb (asks sent_tokenize h) msgs = true) as ->; [|done].
    apply existsb_exists. exists msg. split; [by apply list_elem_of_In|].
    by rewrite (asks_eq _ _ _ _ Hs Hkey).
Qed.

(** C6.  In the index the first loop of [get_top_users] builds, the id of
    a message (ids being unique in the export) is mapped to [True] exactly
    when some sentence of its text, rebuilt when it was not a string, has
    the character [?] or the Arabic question mark; when no sentence has
    one, and so when there is no sentence, the id is absent from the index,
    which a [defaultdict(bool)] reads as [False]. *)
Theorem question_index_iff
    (sent_tokenize : string -> list string) (msgs msgs' : list json)
    (is_question : gmap hkey bool) (i : nat) (msg : json) (s : string) (h : hkey) :
  index_loop sent_tokenize msgs ∅ = (msgs', Ok is_question) ->
  msgs !! i = Some msg ->
  msg_text msg = Ok s ->
  msg_key msg = Ok h ->
  (forall j other, msgs !! j = Some other -> msg_key other = Ok h -> j = i) ->
  (is_question !! h = Some true <->
   exists sentence, sentence ∈ sent_tokenize s /\
     (str_in "?" sentence = true \/ str_in arabic_qmark sentence = true)) /\
  (has_question (sent_tokenize s) = false -> is_question !! h = None) /\
  (sent_tokenize s = [] -> is_question !! h = None).
Proof.
  intros Hloop Hi Hs Hk Huniq.
  destruct (index_loop_ok _ _ _ _ _ Hloop) as [_ Hlook].
  specialize (Hlook h).
  rewrite (existsb_asks_unique _ _ _ _ _ Hi Huniq) in Hlook.
  rewrite (asks_eq _ _ _ _ Hs Hk) in Hlook.
  rewrite lookup_empty in Hlook.
  rewrite <- has_question_iff.
  split; [|split].
  - rewrite Hlook. by destruct (has_question (sent_tokenize s)).
  - intros Hq. by rewrite Hlook, Hq.
  - intros Hnil. by rewrite Hlook, Hnil.
Qed.

Lemma question_index_iff_witness :
  exists msgs' is_question,
    index_loop one_sentence
      [JDict [("id", JInt 1); ("text", JStr "Is this true?")];
       JDict [("id", JInt 2); ("text", JList [JStr "yes"])]] ∅
    = (msgs', Ok is_question) /\
    (is_question !! KInt 2 = Some true <->
     exists sentence, sentence ∈ one_sentence "yes" /\
       (str_in "?" sentence = true \/ str_in arabic_qmark sentence = true)) /\
    (has_question (one_sentence "yes") = false -> is_question !! KInt 2 = None) /\
    (one_sentence "yes" = [] -> is_question !! KInt 2 = None).
Proof.
  eexists _, _. split; [reflexivity|].
  eapply (question_index_iff one_sentence
           [JDict [("id", JInt 1); ("text", JStr "Is this true?")];
            JDict [("id", JInt 2); ("text", JList [JStr "yes"])]]
           _ _ 1%nat (JDict [("id", JInt 2); ("text", JList [JStr "yes"])])
           "yes" (KInt 2)); try reflexivity.
  intros [|[|[|j]]] other; simpl; try done.
  intros [= <-]. discriminate.
Defined.

Lemma one_sentence_keeps_question_marks t :
  no_question_mark t = false -> has_question (one_sentence t) = true.
Proof.
  unfold one_sentence. destruct (String.eqb t "") eqn:E.
  - apply String.eqb_eq in E. by subst.
  - intros H. simpl. by rewrite H.
Qed.

Lemma existsb_asks_middle sent_tokenize h pre msg post :
  asks sent_tokenize h msg = true ->
  existsb (asks sent_tokenize h) (pre ++ msg :: post) = true.
Proof.
  intros H. rewrite existsb_app. simpl. rewrite H. apply orb_true_r.
Qed.

(** ** Segmented messages *)

(** C3.  A message whose text is a sequence of segments adds nothing to
    the text of the word cloud: [generate_word_cloud] gives what it gives
    on the export without the message.  The first loop of [get_top_users]
    still enters it in the question index when its rebuilt text has a
    question mark, sentence tokenization keeping question marks. *)
Theorem segmented_message_skipped_but_indexed
    (sent_tokenize : string -> list string)
    (normalize : string -> string) (word_tokenize : string -> list string)
    (reshape get_display : string -> string) (DATA_DIR : string)
    (self self' : ChatStatistics) (pre post : list json) (msg : json)
    (segments : list json) (output_dir : string) (width height max_font_size : Z) :
  (forall t, no_question_mark t = false -> has_question (sent_tokenize t) = true) ->
  getitem (chat_data self) "messages" = Ok (JList (pre ++ msg :: post)) ->
  getitem (chat_data self') "messages" = Ok (JList (pre ++ post)) ->
  stop_words self' = stop_words self ->
  getitem msg "text" = Ok (JList segments) ->
  generate_word_cloud normalize word_tokenize reshape get_display DATA_DIR
    self output_dir width height max_font_size =
  generate_word_cloud normalize word_tokenize reshape get_display DATA_DIR
    self' output_dir width height max_font_size /\
  (forall s h msgs' is_question,
     rebuild_msg (JList segments) = Ok s ->
     no_question_mark s = false ->
     msg_key msg = Ok h ->
     index_loop sent_tokenize (pre ++ msg :: post) ∅ = (msgs', Ok is_question) ->
     is_question !! h = Some true).
Proof.
  intros Hkeeps Hself Hself' Hstop Htext. split.
  - unfold generate_word_cloud, load_text_content.
    rewrite Hself, Hself', Hstop. simpl.
    by rewrite (cloud_loop_skip _ _ _ _ _ _ _ Htext).
  - intros s h msgs' is_question Hs Hq Hk Hloop.
    destruct (index_loop_ok _ _ _ _ _ Hloop) as [_ Hlook].
    rewrite Hlook, existsb_asks_middle; [done|].
    assert (msg_text msg = Ok s) as Hmsg.
    { unfold msg_text. by rewrite Htext. }
    rewrite (asks_eq _ _ _ _ Hmsg Hk). by apply Hkeeps.
Qed.

Lemma segmented_message_skipped_but_indexed_witness :
  exists msgs' is_question,
    index_loop one_sentence
      [JDict [("id", JInt 1); ("text", JStr "salam")];
       JDict [("id", JInt 3); ("text", JList [JDict [("text", JStr "weather?")]])]] ∅
    = (msgs', Ok is_question) /\
    is_question !! KInt 3 = Some true /\
    generate_word_cloud persian_digits space_words id id "data"
      {| chat_data := JDict [("messages", JList [
           JDict [("id", JInt 1); ("text", JStr "salam")];
           JDict [("id", JInt 3); ("text", JList [JDict [("text", JStr "weather?")]])]])];
         stop_words := ∅ |} "out" 800 600 60 =
    generate_word_cloud persian_digits space_words id id "data"
      {| chat_data := JDict [("messages", JList [
           JDict [("id", JInt 1); ("text", JStr "salam")]])];
         stop_words := ∅ |} "out" 800 600 60.
Proof.
  eexists _, _. split; [reflexivity|].
  destruct (segmented_message_skipped_but_indexed one_sentence persian_digits
              space_words id id "data"
              {| chat_data := JDict [("messages", JList [
                   JDict [("id", JInt 1); ("text", JStr "salam")];
                   JDict [("id", JInt 3);
                          ("text", JList [JDict [("text", JStr "weather?")]])]])];
                 stop_words := ∅ |}
              {| chat_data := JDict [("messages", JList [
                   JDict [("id", JInt 1); ("text", JStr "salam")]])];
                 stop_words := ∅ |}
              [JDict [("id", JInt 1); ("text", JStr "salam")]] []
              (JDict [("id", JInt 3);
                      ("text", JList [JDict [("text", JStr "weather?")]])])
              [JDict [("text", JStr "weather?")]] "out" 800 600 60
              one_sentence_keeps_question_marks eq_refl eq_refl eq_refl eq_refl)
    as [Hcloud Hindex].
  split; [|exact Hcloud].
  eapply (Hindex "weather?"); reflexivity.
Defined.

(** ** The mutation of the loaded export *)

Lemma index_loop_texts sent_tokenize msgs :
  forall (is_question is_question' : gmap hkey bool) msgs',
  index_loop sent_tokenize msgs is_question = (msgs', Ok is_question') ->
  Forall (fun msg => is_ok (msg_text msg) = true) msgs.
Proof.
  induction msgs as [|msg rest IH]; intros iq iq' msgs'; simpl; [done|].
  destruct (index_msg sent_tokenize msg iq) as [msg1 [iq1|e]] eqn:E; [|done].
  destruct (index_loop sent_tokenize rest iq1) as [rest1 r1] eqn:E1.
  intros [= <- ->]. constructor; [|by eapply IH].
  rewrite index_msg_eq in E. injection E as _ E.
  by destruct (msg_text msg).
Qed.

Lemma get_top_users_unfold sent_tokenize self top_n msgs :
  getitem (chat_data self) "messages" = Ok (JList msgs) ->
  get_top_users sent_tokenize self top_n =
  ({| chat_data := store_messages (chat_data self) (JList msgs)
                     (fst (index_loop sent_tokenize msgs ∅));
      stop_words := stop_words self |},
   let* is_question := snd (index_loop sent_tokenize msgs ∅) in
   let* users := vote_loop (fst (index_loop sent_tokenize msgs ∅)) is_question [] in
   let* counts := Counter users in
   Ok (py_dict (most_common counts top_n))).
Proof.
  intros H. unfold get_top_users. rewrite H. simpl.
  by destruct (index_loop sent_tokenize msgs ∅).
Qed.

Lemma store_messages_lookup data msgs msgs' :
  getitem data "messages" = Ok (JList msgs) ->
  getitem (store_messages data (JList msgs) msgs') "messages" = Ok (JList msgs') /\
  forall key, key <> "messages" ->
    getitem (store_messages data (JList msgs) msgs') key = getitem data key.
Proof.
  destruct data as [| b | n | s | items | fields]; try done. simpl.
  intros _. split.
  - by rewrite assoc_get_set_eq.
  - intros key Hkey. rewrite assoc_get_set_ne; done.
Qed.

Lemma msg_text_has_text msg :
  is_ok (msg_text msg) = true -> is_ok (getitem msg "text") = true.
Proof. unfold msg_text. by destruct (getitem msg "text"). Qed.

Lemma plain_text_rebuilt msg :
  is_ok (msg_text msg) = true -> plain_text (rebuilt msg) = any_text msg.
Proof.
  unfold plain_text, any_text. destruct (msg_text msg) as [s|] eqn:E; [|done].
  intros _. by rewrite (rebuilt_text _ _ E).
Qed.

Lemma plain_texts_rebuilt msgs :
  Forall (fun msg => is_ok (msg_text msg) = true) msgs ->
  plain_texts (map rebuilt msgs) = all_texts msgs.
Proof.
  unfold plain_texts, all_texts.
  induction 1 as [|msg rest Hmsg _ IH]; simpl; [done|].
  rewrite (plain_text_rebuilt _ Hmsg).
  destruct (any_text msg); [f_equal|]; exact IH.
Qed.

Lemma rebuilt_cases msg t :
  getitem msg "text" = Ok t ->
  is_ok (msg_text msg) = true ->
  match t with
  | JStr _ => rebuilt msg = msg
  | _ => exists s, rebuild_msg t = Ok s /\ setitem msg "text" (JStr s) = Ok (rebuilt msg)
  end.
Proof.
  unfold msg_text, rebuilt.
  destruct msg as [| b | n | s0 | items | fields]; try done. simpl.
  destruct (assoc_get "text" fields) as [t'|]; [|done].
  intros [= ->]. simpl.
  destruct t; try done;
    case_rebuild;
    try done; eauto.
Qed.

(** C4.  A call of [get_top_users] that returns leaves the loaded export
    changed in place: a message whose text was not a string has the
    string [rebuild_msg] makes of that text in its place, every other
    field of every message is as it was, and so is everything else in the
    object.  A word cloud made before the call is made of the texts that
    were strings; one made after it is made of the texts of all the
    messages, the rebuilt ones included. *)
Theorem get_top_users_rebuilds_in_place
    (sent_tokenize : string -> list string)
    (normalize : string -> string) (word_tokenize : string -> list string)
    (reshape get_display : string -> string) (DATA_DIR : string)
    (self self' : ChatStatistics) (top_n : Z) (res : list (json * Z))
    (msgs : list json) (output_dir : string) (width height max_font_size : Z) :
  getitem (chat_data self) "messages" = Ok (JList msgs) ->
  get_top_users sent_tokenize self top_n = (self', Ok res) ->
  stop_words self' = stop_words self /\
  (forall key, key <> "messages" ->
     getitem (chat_data self') key = getitem (chat_data self) key) /\
  exists msgs',
    getitem (chat_data self') "messages" = Ok (JList msgs') /\
    List.length msgs' = List.length msgs /\
    (forall i msg, msgs !! i = Some msg ->
       exists msg' t,
         msgs' !! i = Some msg' /\ getitem msg "text" = Ok t /\
         (forall key, key <> "text" -> getitem msg' key = getitem msg key) /\
         match t with
         | JStr _ => msg' = msg
         | _ => exists s, rebuild_msg t = Ok s /\
                          setitem msg "text" (JStr s) = Ok msg'
         end) /\
    exists rc rc',
      generate_word_cloud normalize word_tokenize reshape get_display DATA_DIR
        self output_dir width height max_font_size = Ok rc /\
      rc_text rc = get_display (reshape (normalize
        (text_blob word_tokenize (stop_words self) (plain_texts msgs)))) /\
      generate_word_cloud normalize word_tokenize reshape get_display DATA_DIR
        self' output_dir width height max_font_size = Ok rc' /\
      rc_text rc' = get_display (reshape (normalize
        (text_blob word_tokenize (stop_words self) (all_texts msgs)))).
Proof.
  intros Hmsgs Hcall.
  rewrite (get_top_users_unfold _ _ _ _ Hmsgs) in Hcall.
  destruct (index_loop sent_tokenize msgs ∅) as [msgs1 [is_question|e]] eqn:Hloop;
    simpl in Hcall; [|done].
  injection Hcall as <- _. simpl.
  destruct (index_loop_ok _ _ _ _ _ Hloop) as [-> _].
  pose proof (index_loop_texts _ _ _ _ _ Hloop) as Htexts.
  destruct (store_messages_lookup _ _ (map rebuilt msgs) Hmsgs) as [Hnew Hframe].
  split; [done|]. split; [done|].
  exists (map rebuilt msgs). split; [done|].
  split; [by rewrite length_map|]. split.
  - intros i msg Hi.
    pose proof (proj1 (Forall_lookup _ _) Htexts i msg Hi) as Hok.
    destruct (getitem msg "text") as [t|] eqn:Ht;
      [|by apply msg_text_has_text in Hok; rewrite Ht in Hok].
    exists (rebuilt msg), t. split; [by rewrite list_lookup_fmap, Hi|].
    split; [done|]. split; [apply rebuilt_other_field|].
    by apply rebuilt_cases.
  - unfold generate_word_cloud, load_text_content. cbn [chat_data stop_words].
    rewrite Hmsgs, Hnew. simpl.
    rewrite !cloud_loop_blob.
    + simpl. rewrite (plain_texts_rebuilt _ Htexts). eauto 10.
    + apply Forall_map. eapply Forall_impl; [exact Htexts|].
      intros msg Hok. simpl in *.
      destruct (msg_text msg) as [s|] eqn:E; [|done].
      by rewrite (rebuilt_text _ _ E).
    + eapply Forall_impl; [exact Htexts|]. apply msg_text_has_text.
Qed.

Lemma get_top_users_rebuilds_in_place_witness :
  exists self' res rc',
    get_top_users one_sentence example_stats 10 = (self', Ok res) /\
    generate_word_cloud persian_digits space_words id id "data"
      self' "out" 800 600 60 = Ok rc' /\
    rc_text rc' = id (id (persian_digits
      (text_blob space_words (stop_words example_stats)
         (all_texts (example_messages ++ [example_dangling]))))).
Proof.
  destruct (get_top_users one_sentence example_stats 10) as [self' [res|e]] eqn:Hcall;
    [|exfalso; vm_compute in Hcall; discriminate Hcall].
  destruct (get_top_users_rebuilds_in_place one_sentence persian_digits
              space_words id id "data" example_stats self' 10 res
              (example_messages ++ [example_dangling]) "out" 800 600 60
              eq_refl Hcall)
    as (_ & _ & msgs' & _ & _ & _ & rc & rc' & _ & _ & Hrc' & Htext).
  exists self', res, rc'. split; [reflexivity|]. split; [exact Hrc'|exact Htext].
Defined.

(** ** The second loop *)

Lemma defaultdict_getitem_eq (is_question : gmap hkey bool) k :
  exists is_question',
    defaultdict_getitem is_question k =
      (let* h := py_hash k in Ok (flagged is_question h, is_question')) /\
    forall h, flagged is_question' h = flagged is_question h.
Proof.
  unfold defaultdict_getitem, flagged.
  destruct (py_hash k) as [h|e]; simpl; [|by exists is_question].
  destruct (is_question !! h) as [b|] eqn:E.
  - by exists is_question.
  - exists (<[h := false]> is_question). split; [done|].
    intros h'. destruct (decide (h = h')) as [<-|Hne].
    + by rewrite lookup_insert_eq, E.
    + by rewrite lookup_insert_ne.
Qed.

(** The loop adds to [users] the votes of the messages, in order; the
    keys the [defaultdict] inserts on the way do not change its answers. *)
Lemma vote_loop_votes msgs : forall (is_question is_question0 : gmap hkey bool) users,
  (forall h, flagged is_question h = flagged is_question0 h) ->
  vote_loop msgs is_question users =
  (let* vs := votes is_question0 msgs in Ok (users ++ vs)).
Proof.
  induction msgs as [|msg rest IH]; intros iq iq0 users Heq; simpl.
  - by rewrite app_nil_r.
  - unfold vote.
    destruct (dict_get msg "reply_to_message_id") as [reply|e]; simpl; [|done].
    destruct (truthy reply); simpl.
    + destruct (getitem msg "reply_to_message_id") as [reply_id|e]; simpl; [|done].
      destruct (defaultdict_getitem_eq iq reply_id) as (iq' & -> & Hiq').
      destruct (py_hash reply_id) as [h|e]; simpl; [|done].
      rewrite Heq.
      assert (forall h, flagged iq' h = flagged iq0 h) as Heq'
        by (intros h'; by rewrite Hiq').
      destruct (flagged iq0 h); simpl.
      * destruct (getitem msg "from") as [user|e]; simpl; [|done].
        rewrite (IH _ _ _ Heq').
        destruct (votes iq0 rest); simpl; [|done].
        by rewrite <- app_assoc.
      * rewrite (IH _ _ _ Heq'). by destruct (votes iq0 rest).
    + rewrite (IH _ _ _ Heq). by destruct (votes iq0 rest).
Qed.

Lemma votes_app is_question pre post :
  votes is_question (pre ++ post) =
  (let* a := votes is_question pre in
   let* b := votes is_question post in
   Ok (a ++ b)).
Proof.
  induction pre as [|msg pre IH]; simpl.
  - by destruct (votes is_question post).
  - destruct (vote is_question msg) as [v|e]; simpl; [|done].
    rewrite IH. destruct (votes is_question pre) as [a|e]; simpl; [|done].
    destruct (votes is_question post) as [b|e]; simpl; [|done].
    by rewrite app_assoc.
Qed.

Lemma vote_rebuilt is_question msg :
  vote is_question (rebuilt msg) = vote is_question msg.
Proof.
  unfold vote.
  by rewrite rebuilt_other_get, !rebuilt_other_field.
Qed.

Lemma votes_rebuilt is_question msgs :
  votes is_question (map rebuilt msgs) = votes is_question msgs.
Proof.
  induction msgs as [|msg rest IH]; simpl; [done|].
  by rewrite vote_rebuilt, IH.
Qed.

(** The result of [get_top_users] on an export whose messages are a list. *)
Lemma get_top_users_result sent_tokenize self top_n msgs :
  getitem (chat_data self) "messages" = Ok (JList msgs) ->
  snd (get_top_users sent_tokenize self top_n) =
  (let* is_question := snd (index_loop sent_tokenize msgs ∅) in
   let* users := votes is_question msgs in
   let* counts := Counter users in
   Ok (py_dict (most_common counts top_n))).
Proof.
  intros H. rewrite (get_top_users_unfold _ _ _ _ H). simpl.
  destruct (index_loop sent_tokenize msgs ∅) as [msgs' [iq|e]] eqn:Hloop;
    simpl; [|done].
  destruct (index_loop_ok _ _ _ _ _ Hloop) as [-> _].
  rewrite (vote_loop_votes _ iq iq []) by done.
  rewrite votes_rebuilt. by destruct (votes iq msgs).
Qed.

(** ** Replies to messages that do not exist *)

Lemma no_key_not_flagged sent_tokenize msgs msgs' (is_question : gmap hkey bool) h :
  index_loop sent_tokenize msgs ∅ = (msgs', Ok is_question) ->
  (forall other, other ∈ msgs -> msg_key other <> Ok h) ->
  flagged is_question h = false.
Proof.
  intros Hloop Hnone. unfold flagged.
  destruct (index_loop_ok _ _ _ _ _ Hloop) as [_ ->].
  destruct (existsb (asks sent_tokenize h) msgs) eqn:E; [|done].
  apply existsb_exists in E as (other & Hin & Hasks).
  apply list_elem_of_In in Hin.
  destruct (Hnone other Hin). by eapply asks_key.
Qed.

(** C8.  A message whose [reply_to_message_id] is an id that no message of
    the export carries gives no vote: [get_top_users] returns what the
    counting gives on the other messages alone. *)
Theorem dangling_reply_no_vote
    (sent_tokenize : string -> list string) (self : ChatStatistics) (top_n : Z)
    (pre post msgs' : list json) (msg reply : json)
    (is_question : gmap hkey bool) (h : hkey) :
  getitem (chat_data self) "messages" = Ok (JList (pre ++ msg :: post)) ->
  index_loop sent_tokenize (pre ++ msg :: post) ∅ = (msgs', Ok is_question) ->
  dict_get msg "reply_to_message_id" = Ok reply ->
  py_hash reply = Ok h ->
  (forall other, other ∈ pre ++ msg :: post -> msg_key other <> Ok h) ->
  snd (get_top_users sent_tokenize self top_n) =
  (let* users := vote_loop (map rebuilt (pre ++ post)) is_question [] in
   let* counts := Counter users in
   Ok (py_dict (most_common counts top_n))).
Proof.
  intros Hmsgs Hloop Hreply Hhash Hnone.
  rewrite (get_top_users_result _ _ _ _ Hmsgs), Hloop. simpl.
  rewrite (vote_loop_votes _ is_question is_question []) by done.
  rewrite votes_rebuilt, !votes_app. simpl.
  assert (vote is_question msg = Ok None) as ->.
  { unfold vote. rewrite Hreply. simpl.
    destruct (truthy reply) eqn:Ht; simpl; [|done].
    assert (getitem msg "reply_to_message_id" = Ok reply) as ->.
    { destruct msg as [| b | n | s | items | fields]; try done. simpl in *.
      destruct (assoc_get "reply_to_message_id" fields); [done|].
      injection Hreply as <-. done. }
    simpl. rewrite Hhash. simpl.
    by rewrite (no_key_not_flagged _ _ _ _ _ Hloop Hnone). }
  simpl.
  destruct (votes is_question pre) as [a|e]; simpl; [|done].
  by destruct (votes is_question post) as [b|e].
Qed.

Lemma dangling_reply_no_vote_witness :
  exists msgs' is_question,
    index_loop one_sentence (example_messages ++ example_dangling :: []) ∅
    = (msgs', Ok is_question) /\
    snd (get_top_users one_sentence example_stats 10) =
    (let* users := vote_loop (map rebuilt (example_messages ++ [])) is_question [] in
     let* counts := Counter users in
     Ok (py_dict (most_common counts 10))).
Proof.
  eexists _, _. split; [reflexivity|].
  eapply (dangling_reply_no_vote one_sentence example_stats 10
            example_messages [] _ example_dangling (JInt 99) _ (KInt 99));
    try reflexivity.
  intros other Hin Hkey.
  repeat (apply elem_of_cons in Hin as [->|Hin]; [discriminate Hkey|]).
  by apply elem_of_nil in Hin.
Defined.

(** ** [most_common] *)

Lemma Forall_insert_desc (P : json * Z -> Prop) x l :
  P x -> Forall P l -> Forall P (insert_desc x l).
Proof.
  intros Hx. induction 1 as [|y rest Hy Hrest IH]; simpl.
  - by constructor.
  - destruct (snd y <=? snd x); repeat constructor; done.
Qed.

Lemma insert_desc_sorted x l :
  StronglySorted by_count_desc l -> StronglySorted by_count_desc (insert_desc x l).
Proof.
  induction 1 as [|y rest Hsorted IH Hy]; simpl.
  - repeat constructor.
  - destruct (snd y <=? snd x) eqn:E.
    + apply Z.leb_le in E. constructor; [by constructor|].
      constructor; [done|].
      eapply Forall_impl; [exact Hy|].
      intros z Hz. unfold by_count_desc in *. lia.
    + apply Z.leb_gt in E. constructor; [done|].
      apply Forall_insert_desc; [|done].
      unfold by_count_desc. lia.
Qed.

Lemma sort_desc_sorted items : StronglySorted by_count_desc (sort_desc items).
Proof.
  induction items as [|x rest IH]; simpl; [constructor|].
  by apply insert_desc_sorted.
Qed.

Lemma StronglySorted_take {A} (R : A -> A -> Prop) (l : list A) : forall n,
  StronglySorted R l -> StronglySorted R (take n l).
Proof.
  induction l as [|x l IH]; intros [|n] H; simpl; try constructor.
  - apply IH. by inversion H.
  - apply Forall_take. by inversion H.
Qed.

Lemma most_common_sorted counts n :
  StronglySorted by_count_desc (most_common counts n).
Proof. apply StronglySorted_take, sort_desc_sorted. Qed.

Lemma most_common_length counts n :
  0 <= n -> Z.of_nat (List.length (most_common counts n)) <= n.
Proof. intros Hn. unfold most_common. rewrite length_take. lia. Qed.

(** ** [Counter] and [dict]: distinct keys *)

Lemma same_key_hk a b :
  is_ok (py_hash a) = true -> is_ok (py_hash b) = true ->
  same_key a b = bool_decide (hk a = hk b).
Proof.
  unfold same_key, hk.
  by destruct (py_hash a), (py_hash b).
Qed.

Lemma count_incr_keys elem counts h :
  h ∈ (fun kv => hk (fst kv)) <$> count_incr elem counts ->
  h = hk elem \/ h ∈ (fun kv => hk (fst kv)) <$> counts.
Proof.
  induction counts as [|[k c] rest IH]; simpl.
  - intros [->|[]%elem_of_nil]%elem_of_cons. by left.
  - destruct (same_key k elem); simpl; [by right|].
    intros [->|Hin]%elem_of_cons.
    + right. apply list_elem_of_here.
    + destruct (IH Hin) as [->|Hrest]; [by left|].
      right. by apply list_elem_of_further.
Qed.

Lemma count_incr_distinct elem counts :
  is_ok (py_hash elem) = true ->
  distinct_keys counts -> distinct_keys (count_incr elem counts).
Proof.
  intros Helem. induction counts as [|[k c] rest IH]; intros [Hhash Hnodup].
  - split; simpl; [by repeat constructor|].
    apply NoDup_singleton.
  - simpl in *. inversion Hhash as [|? ? Hk Hrest]; subst. simpl in Hk.
    apply NoDup_cons in Hnodup as [Hnotin Hnodup].
    destruct (same_key k elem) eqn:E.
    + split; simpl; [by constructor|]. by apply NoDup_cons.
    + destruct (IH (conj Hrest Hnodup)) as [Hhash' Hnodup'].
      split; simpl; [by constructor|].
      apply NoDup_cons. split; [|done].
      intros [Heq|Hin]%count_incr_keys; [|done].
      rewrite same_key_hk in E by done.
      by apply bool_decide_eq_false in E.
Qed.

Lemma counter_update_distinct elems : forall counts counts',
  distinct_keys counts ->
  counter_update elems counts = Ok counts' ->
  distinct_keys counts'.
Proof.
  induction elems as [|elem rest IH]; intros counts counts' Hd; simpl.
  - by intros [= <-].
  - destruct (py_hash elem) as [h|] eqn:E; simpl; [|done].
    apply IH, count_incr_distinct; [by rewrite E|done].
Qed.

Lemma insert_desc_perm x l : insert_desc x l ≡ₚ x :: l.
Proof.
  induction l as [|y rest IH]; simpl; [done|].
  destruct (snd y <=? snd x); [done|].
  rewrite IH. apply Permutation_swap.
Qed.

Lemma sort_desc_perm items : sort_desc items ≡ₚ items.
Proof.
  induction items as [|x rest IH]; simpl; [done|].
  by rewrite insert_desc_perm, IH.
Qed.

Lemma most_common_distinct counts n :
  distinct_keys counts -> distinct_keys (most_common counts n).
Proof.
  intros [Hhash Hnodup]. unfold most_common. split.
  - apply Forall_take. by rewrite sort_desc_perm.
  - rewrite fmap_take.
    eapply sublist_NoDup; [|apply sublist_take].
    by rewrite sort_desc_perm.
Qed.

Lemma dict_setitem_fresh k v d :
  is_ok (py_hash k) = true ->
  Forall (fun kv => is_ok (py_hash (fst kv)) = true) d ->
  hk k ∉ (fun kv => hk (fst kv)) <$> d ->
  dict_setitem k v d = d ++ [(k, v)].
Proof.
  intros Hk. induction 1 as [|[k' v'] rest Hk' Hrest IH]; simpl; [done|].
  intros Hnotin. apply not_elem_of_cons in Hnotin as [Hne Hnotin].
  simpl in *. rewrite same_key_hk by done.
  rewrite bool_decide_eq_false_2 by done.
  by rewrite IH.
Qed.

Lemma fold_dict_setitem_distinct pairs : forall d,
  distinct_keys (d ++ pairs) ->
  fold_left (fun d kv => dict_setitem (fst kv) (snd kv) d) pairs d = d ++ pairs.
Proof.
  induction pairs as [|[k v] rest IH]; intros d Hd; simpl.
  - by rewrite app_nil_r.
  - destruct Hd as [Hhash Hnodup].
    apply Forall_app in Hhash as [Hd Hrest].
    inversion Hrest as [|? ? Hk Hrest']; subst. simpl in Hk.
    rewrite fmap_app in Hnodup. simpl in Hnodup.
    pose proof Hnodup as Hnodup0.
    apply NoDup_app in Hnodup as (_ & Hsep & _).
    rewrite dict_setitem_fresh; try done.
    + rewrite IH; [by rewrite <- app_assoc|].
      rewrite <- app_assoc. simpl. split.
      * apply Forall_app. split; [done|]. by constructor.
      * by rewrite fmap_app.
    + intros Hin. apply (Hsep _ Hin). apply list_elem_of_here.
Qed.

(** Made of entries with distinct keys, a [dict] has these entries, in
    their order. *)
Lemma py_dict_distinct pairs : distinct_keys pairs -> py_dict pairs = pairs.
Proof. intros H. unfold py_dict. by rewrite fold_dict_setitem_distinct. Qed.

Lemma Counter_distinct users counts :
  Counter users = Ok counts -> distinct_keys counts.
Proof.
  apply counter_update_distinct. split; [constructor|]. simpl. apply NoDup_nil_2.
Qed.

(** ** Well-formed exports *)

Lemma wf_message_inv msg :
  wf_message msg = true ->
  exists fields t n a,
    msg = JDict fields /\
    assoc_get "text" fields = Some t /\ wf_text t = true /\
    assoc_get "id" fields = Some (JInt n) /\
    assoc_get "from" fields = Some (JStr a) /\
    (assoc_get "reply_to_message_id" fields = None \/
     exists r, assoc_get "reply_to_message_id" fields = Some (JInt r)).
Proof.
  destruct msg as [| b | n | s | items | fields]; try done. simpl.
  intros [[[Ht Hid]%andb_prop Hfrom]%andb_prop Hreply]%andb_prop.
  destruct (assoc_get "text" fields) as [t|] eqn:E1; [|done].
  destruct (assoc_get "id" fields) as [[]|] eqn:E2; try done.
  destruct (assoc_get "from" fields) as [[]|] eqn:E3; try done.
  eexists fields, t, _, _. repeat split; try done.
  destruct (assoc_get "reply_to_message_id" fields) as [[]|]; try done; eauto.
Qed.

Lemma index_loop_wf sent_tokenize msgs : forall (is_question : gmap hkey bool),
  Forall (fun msg => wf_message msg = true) msgs ->
  exists is_question',
    index_loop sent_tokenize msgs is_question = (map rebuilt msgs, Ok is_question').
Proof.
  induction msgs as [|msg rest IH]; intros iq Hwf; simpl; [by eexists|].
  inversion Hwf as [|? ? Hmsg Hrest]; subst.
  destruct (wf_message_inv _ Hmsg) as (fields & t & n & a & -> & Ht & Hwt & Hid & _).
  rewrite index_msg_eq.
  assert (msg_text (JDict fields) = Ok (flat_text t)) as ->
    by (apply msg_text_wf; [by simpl; rewrite Ht|done]).
  simpl.
  unfold msg_key. simpl. rewrite Hid. simpl.
  destruct (has_question _); simpl;
    match goal with
    | |- context [index_loop _ rest ?iq1] => destruct (IH iq1 Hrest) as [iq' ->]
    end; by eexists.
Qed.

Lemma vote_wf is_question msg :
  wf_message msg = true ->
  exists v, vote is_question msg = Ok v /\
            forall user, v = Some user -> is_ok (py_hash user) = true.
Proof.
  intros Hmsg.
  destruct (wf_message_inv _ Hmsg)
    as (fields & t & n & a & -> & _ & _ & _ & Hfrom & [Hreply|[r Hreply]]);
    unfold vote; simpl; rewrite Hreply; simpl.
  - by eexists.
  - destruct (Z.eqb r 0); simpl; [by eexists|].
    rewrite Hfrom. destruct (flagged is_question (KInt r)); simpl.
    + eexists. split; [done|]. by intros user [= <-].
    + by eexists.
Qed.

Lemma votes_wf is_question msgs :
  Forall (fun msg => wf_message msg = true) msgs ->
  exists users, votes is_question msgs = Ok users /\
                Forall (fun user => is_ok (py_hash user) = true) users.
Proof.
  induction 1 as [|msg rest Hmsg _ (users & Hrest & Hhash)]; simpl; [by eexists|].
  destruct (vote_wf is_question msg Hmsg) as (v & -> & Hv). simpl.
  rewrite Hrest. simpl. eexists. split; [done|].
  apply Forall_app. split; [|done].
  destruct v as [user|]; simpl; [|done]. constructor; [by apply Hv|done].
Qed.

Lemma counter_update_hashable elems : forall counts,
  Forall (fun elem => is_ok (py_hash elem) = true) elems ->
  exists counts', counter_update elems counts = Ok counts'.
Proof.
  induction elems as [|elem rest IH]; intros counts Hh; simpl; [by eexists|].
  inversion Hh as [|? ? Helem Hrest]; subst.
  destruct (py_hash elem); [|done]. simpl. by apply IH.
Qed.

Lemma wf_export_inv data :
  wf_export data = true ->
  exists msgs, getitem data "messages" = Ok (JList msgs) /\
               Forall (fun msg => wf_message msg = true) msgs.
Proof.
  destruct data as [| b | n | s | items | fields]; try done. simpl.
  destruct (assoc_get "messages" fields) as [[]|]; try done.
  intros H. eexists. split; [done|].
  apply Forall_forall. intros msg Hin.
  apply (proj1 (forallb_forall _ _) H). by apply list_elem_of_In.
Qed.

(** ** The size and order of the result *)

(** C7.  For a non-negative [top_n], what [get_top_users] returns has at
    most [top_n] entries and counts that do not increase along it; on an
    export without messages it returns the empty mapping; and on every
    export that follows the data model it does return. *)
Theorem get_top_users_at_most_top_n_sorted
    (sent_tokenize : string -> list string) (self : ChatStatistics) (top_n : Z) :
  0 <= top_n ->
  (wf_export (chat_data self) = true ->
   exists res, snd (get_top_users sent_tokenize self top_n) = Ok res) /\
  (forall res, snd (get_top_users sent_tokenize self top_n) = Ok res ->
     Z.of_nat (List.length res) <= top_n /\ StronglySorted by_count_desc res) /\
  (getitem (chat_data self) "messages" = Ok (JList []) ->
   snd (get_top_users sent_tokenize self top_n) = Ok []).
Proof.
  intros Hn. split; [|split].
  - intros (msgs & Hmsgs & Hwf)%wf_export_inv.
    rewrite (get_top_users_result _ _ _ _ Hmsgs).
    destruct (index_loop_wf sent_tokenize msgs ∅ Hwf) as [iq ->]. simpl.
    destruct (votes_wf iq msgs Hwf) as (users & -> & Hhash). simpl.
    destruct (counter_update_hashable users [] Hhash) as [counts Hcounts].
    unfold Counter. rewrite Hcounts. simpl. by eexists.
  - intros res. unfold get_top_users.
    destruct (getitem (chat_data self) "messages") as [messages|]; [|done].
    destruct (py_iter messages) as [msgs|]; [|done].
    destruct (index_loop sent_tokenize msgs ∅) as [msgs' [iq|]]; simpl; [|done].
    destruct (vote_loop msgs' iq []) as [users|]; simpl; [|done].
    destruct (Counter users) as [counts|] eqn:Hcounts; simpl; [|done].
    intros [= <-].
    rewrite py_dict_distinct
      by (by apply most_common_distinct, (Counter_distinct users)).
    split; [by apply most_common_length|apply most_common_sorted].
  - intros Hmsgs. rewrite (get_top_users_result _ _ _ _ Hmsgs). simpl.
    unfold most_common. simpl. by rewrite take_nil.
Qed.

Lemma get_top_users_at_most_top_n_sorted_witness :
  0 <= 1 /\
  exists res,
    snd (get_top_users one_sentence example_stats 1) = Ok res /\
    Z.of_nat (List.length res) <= 1 /\ StronglySorted by_count_desc res.
Proof.
  split; [lia|].
  destruct (get_top_users_at_most_top_n_sorted one_sentence example_stats 1)
    as (Hreturns & Hsorted & _); [lia|].
  destruct (Hreturns eq_refl) as [res Hres].
  exists res. split; [exact Hres|]. by apply Hsorted.
Defined.

(** ** Failures *)

Lemma index_loop_raise_at sent_tokenize pre msg post e :
  forall (is_question : gmap hkey bool),
  Forall (fun x => wf_message x = true) pre ->
  msg_text msg = Raise e ->
  index_loop sent_tokenize (pre ++ msg :: post) is_question =
  (map rebuilt pre ++ msg :: post, Raise e).
Proof.
  intros iq Hwf Hmsg. revert iq.
  induction Hwf as [|x pre Hx Hpre IH]; intros iq; simpl.
  - rewrite index_msg_eq, Hmsg. simpl.
    unfold rebuilt, msg_text in *.
    destruct msg as [| b | n | s | items | fields]; try done. simpl in *.
    destruct (assoc_get "text" fields) as [t|]; [|done]. simpl in *.
    destruct t; try done; by rewrite Hmsg.
  - destruct (index_loop_wf sent_tokenize [x] iq) as [iq1 Hone];
      [by constructor|].
    simpl in Hone.
    destruct (index_msg sent_tokenize x iq) as [x1 [iq2|e2]]; [|done].
    injection Hone as -> ->. by rewrite IH.
Qed.

Lemma not_malformed_message_error {A : Type} (r : result A) :
  ~ fails_with "MalformedMessageError" r.
Proof. intros (e & _ & Hname). by destruct e. Qed.

(** C10, as the code has it.  The messages before [msg] following the data
    model: if [msg] is a vote (its [reply_to_message_id] is flagged in the
    index) and has no [from], [get_top_users] raises [KeyError]; if [msg]
    has no [text] it raises [KeyError]; if the text of [msg] is a number,
    a boolean, [null], or a sequence with an element that cannot be
    rebuilt, it raises [TypeError].  What comes back is a whole result or
    an exception, and never an exception called [MalformedMessageError]. *)
Theorem get_top_users_raises_builtin_errors
    (sent_tokenize : string -> list string) (self : ChatStatistics) (top_n : Z)
    (pre post : list json) (msg : json) :
  getitem (chat_data self) "messages" = Ok (JList (pre ++ msg :: post)) ->
  Forall (fun x => wf_message x = true) pre ->
  (forall msgs' (is_question : gmap hkey bool) reply h,
     index_loop sent_tokenize (pre ++ msg :: post) ∅ = (msgs', Ok is_question) ->
     dict_get msg "reply_to_message_id" = Ok reply ->
     truthy reply = true ->
     py_hash reply = Ok h ->
     is_question !! h = Some true ->
     getitem msg "from" = Raise KeyError ->
     snd (get_top_users sent_tokenize self top_n) = Raise KeyError) /\
  (getitem msg "text" = Raise KeyError ->
   snd (get_top_users sent_tokenize self top_n) = Raise KeyError) /\
  (forall t, getitem msg "text" = Ok t ->
     match t with
     | JNull | JBool _ | JInt _ => True
     | JList items => forallb rebuildable items = false
     | _ => False
     end ->
     snd (get_top_users sent_tokenize self top_n) = Raise TypeError) /\
  ((exists res, snd (get_top_users sent_tokenize self top_n) = Ok res) \/
   (exists e, snd (get_top_users sent_tokenize self top_n) = Raise e)) /\
  ~ fails_with "MalformedMessageError" (snd (get_top_users sent_tokenize self top_n)).
Proof.
  intros Hmsgs Hwf.
  rewrite (get_top_users_result _ _ _ _ Hmsgs).
  split; [|split; [|split; [|split]]].
  - intros msgs' iq reply h Hloop Hreply Htruthy Hhash Hflag Hfrom.
    rewrite Hloop. simpl. rewrite votes_app.
    destruct (votes_wf iq pre Hwf) as (users & -> & _). simpl.
    assert (vote iq msg = Raise KeyError) as ->; [|done].
    unfold vote. rewrite Hreply. simpl. rewrite Htruthy. simpl.
    assert (getitem msg "reply_to_message_id" = Ok reply) as ->.
    { destruct msg as [| b | n | s | items | fields]; try done. simpl in *.
      destruct (assoc_get "reply_to_message_id" fields); [done|].
      by injection Hreply as <-. }
    simpl. rewrite Hhash. simpl. unfold flagged. rewrite Hflag. simpl.
    by rewrite Hfrom.
  - intros Htext.
    rewrite (index_loop_raise_at _ _ _ _ KeyError); [done|done|].
    unfold msg_text. by rewrite Htext.
  - intros t Htext Hshape.
    rewrite (index_loop_raise_at _ _ _ _ TypeError); [done|done|].
    unfold msg_text. rewrite Htext. simpl.
    destruct t; try done.
    unfold rebuild_msg. simpl. by apply rebuild_loop_not_rebuildable.
  - match goal with |- (exists res, ?r = _) \/ _ => destruct r end; eauto.
  - apply not_malformed_message_error.
Qed.

Lemma get_top_users_raises_builtin_errors_witness :
  snd (get_top_users one_sentence example_no_from 10) = Raise KeyError.
Proof.
  destruct (get_top_users_raises_builtin_errors one_sentence example_no_from 10
              [example_question] [] example_anonymous_reply eq_refl)
    as [Hfrom _].
  { by repeat constructor. }
  eapply (Hfrom _ _ (JInt 1) (KInt 1)); reflexivity.
Defined.

(** C10 as the specification states it fails on a vote without [from]:
    the exception is the [KeyError] of the subscript, not a
    [MalformedMessageError]. *)
Lemma missing_from_not_malformed_message_error :
  ~ fails_with "MalformedMessageError"
      (snd (get_top_users one_sentence example_no_from 10)).
Proof.
  intros (e & He & Hname). vm_compute in He.
  injection He as <-. discriminate Hname.
Qed.

(** A text that is a record is not refused: the loop of [rebuild_msg] goes
    over its keys, and [get_top_users] returns. *)
Example record_text_is_rebuilt :
  get_top_users one_sentence
    {| chat_data := JDict [("messages", JList [
         JDict [("id", JInt 1); ("from", JStr "A");
                ("text", JDict [("why?", JInt 0)])];
         JDict [("id", JInt 2); ("from", JStr "B");
                ("reply_to_message_id", JInt 1); ("text", JStr "because")]])];
       stop_words := ∅ |} 10
  = ({| chat_data := JDict [("messages", JList [
          JDict [("id", JInt 1); ("from", JStr "A"); ("text", JStr "why?")];
          JDict [("id", JInt 2); ("from", JStr "B");
                 ("reply_to_message_id", JInt 1); ("text", JStr "because")]])];
        stop_words := ∅ |},
     Ok [(JStr "B", 1)]).
Proof. reflexivity. Qed.

(** ** Stop words *)

(** The tokens that go into the text are those that are not, as they
    stand, in the set of stop words. *)
Lemma keep_tokens_spec (stop_words : gset string) tokens token :
  token ∈ keep_tokens stop_words tokens <->
  token ∈ tokens /\ token ∉ stop_words.
Proof. unfold keep_tokens. rewrite list_elem_of_filter. tauto. Qed.

(** C2 fails on the code.  The stop words are normalized when they are
    loaded, the tokens of a message are compared with them as they stand,
    and the text is normalized after the filter: with the stop word [1]
    and the message text [1 2], the token [1] is kept, and the text given
    to the renderer has the token U+06F1, which is the stop word. *)
Theorem stop_word_survives_in_rendered_text :
  let self :=
    init persian_digits
      (JDict [("messages", JList [
         JDict [("id", JInt 1); ("from", JStr "A"); ("text", JStr "1 2")]])])
      ["1" +:+ newline] in
  stop_words self = {[persian_one]} /\
  load_text_content space_words self = Ok " 1 2" /\
  exists rc,
    generate_word_cloud persian_digits space_words id id "data"
      self "out" 800 600 60 = Ok rc /\
    persian_one ∈ space_words (rc_text rc) /\
    persian_digits persian_one ∈ stop_words self.
Proof.
  intros self.
  assert (stop_words self = {[persian_one]}) as Hstop.
  { unfold self, init. simpl. set_solver. }
  assert (load_text_content space_words self = Ok " 1 2") as Hload.
  { unfold load_text_content. rewrite Hstop. by vm_compute. }
  split; [done|]. split; [done|].
  unfold generate_word_cloud. rewrite Hload. cbn [bind].
  eexists. split; [reflexivity|]. cbn [rc_text]. rewrite Hstop. split.
  - vm_compute. apply list_elem_of_here.
  - apply elem_of_singleton. reflexivity.
Qed.

(** * Further properties of the code *)

(** ** [rebuild_msg] on other iterables, and on concatenations *)

Lemma code_points_from_concat s : forall cur,
  foldr String.append "" (code_points_from cur s) = cur +:+ s.
Proof.
  induction s as [|c s IH]; intros cur; simpl.
  - by rewrite !string_append_empty_r.
  - destruct (is_continuation c); simpl; rewrite IH.
    + by rewrite string_append_assoc.
    + done.
Qed.

Lemma code_points_concat s : foldr String.append "" (code_points s) = s.
Proof. destruct s as [|c s]; [done|]. simpl. apply code_points_from_concat. Qed.

Lemma rebuild_loop_strings l : forall acc,
  rebuild_loop acc (map JStr l) = Ok (acc +:+ foldr String.append "" l).
Proof.
  induction l as [|x l IH]; intros acc; simpl.
  - by rewrite string_append_empty_r.
  - by rewrite IH, string_append_assoc.
Qed.

(** [rebuild_msg] takes any iterable: of a string it makes the string
    itself (it goes over its characters), of a record the concatenation
    of its keys in order; a number, a boolean and [null] cannot be
    iterated over. *)
Theorem rebuild_msg_other_iterables :
  (forall s, rebuild_msg (JStr s) = Ok s) /\
  (forall fields,
     rebuild_msg (JDict fields) = Ok (foldr String.append "" (map fst fields))) /\
  (forall v, match v with
             | JNull | JBool _ | JInt _ => rebuild_msg v = Raise TypeError
             | _ => True
             end).
Proof.
  split; [|split].
  - intros s. unfold rebuild_msg. simpl.
    by rewrite rebuild_loop_strings, code_points_concat.
  - intros fields. unfold rebuild_msg. simpl.
    rewrite <- (map_map fst JStr). by rewrite rebuild_loop_strings.
  - by intros [].
Qed.

(** What the loop has gathered so far has no part in what follows. *)
Lemma rebuild_loop_acc items : forall acc,
  rebuild_loop acc items =
  (let* t := rebuild_loop "" items in Ok (acc +:+ t)).
Proof.
  induction items as [|x rest IH]; intros acc; simpl.
  - by rewrite string_append_empty_r.
  - destruct x as [| b | n | s | items | fields]; simpl; try done.
    + change ("" +:+ s) with s. rewrite (IH (acc +:+ s)), (IH s).
      destruct (rebuild_loop "" rest); simpl; [|done].
      by rewrite string_append_assoc.
    + destruct (existsb (is_str_eq "text") items); simpl; [done|]. apply IH.
    + destruct (bool_decide (is_Some (assoc_get "text" fields))); simpl;
        [|apply IH].
      destruct (assoc_get "text" fields) as [v|]; simpl; [|done].
      destruct v; simpl; try done.
      change ("" +:+ s) with s. rewrite (IH (acc +:+ s)), (IH s).
      destruct (rebuild_loop "" rest); simpl; [|done].
      by rewrite string_append_assoc.
Qed.

Lemma rebuild_loop_app pre post : forall acc,
  rebuild_loop acc (pre ++ post) =
  (let* s := rebuild_loop acc pre in rebuild_loop s post).
Proof.
  induction pre as [|x pre IH]; intros acc; simpl; [done|].
  destruct x as [| b | n | s | items | fields]; simpl; try done.
  - destruct (existsb (is_str_eq "text") items); simpl; [done|]. apply IH.
  - destruct (bool_decide (is_Some (assoc_get "text" fields))); simpl;
      [|apply IH].
    destruct (assoc_get "text" fields) as [v|]; simpl; [|done].
    destruct v; simpl; try done.
Qed.

(** The text rebuilt from two sequences put end to end is the text of the
    first followed by the text of the second; an exception is that of the
    first sequence when it raises, else that of the second. *)
Theorem rebuild_msg_app pre post :
  rebuild_msg (JList (pre ++ post)) =
  (let* s := rebuild_msg (JList pre) in
   let* t := rebuild_msg (JList post) in
   Ok (s +:+ t)).
Proof.
  unfold rebuild_msg. simpl. rewrite rebuild_loop_app.
  destruct (rebuild_loop "" pre) as [s|e]; simpl; [|done].
  apply rebuild_loop_acc.
Qed.

(** ** What a call leaves behind *)

Lemma rebuilt_raise msg e : msg_text msg = Raise e -> rebuilt msg = msg.
Proof.
  unfold msg_text, rebuilt.
  destruct msg as [| b | n | s0 | items | fields]; try done. simpl.
  destruct (assoc_get "text" fields) as [t|]; [|done]. simpl.
  destruct t; try done; by intros ->.
Qed.

Lemma rebuilt_idem msg : rebuilt (rebuilt msg) = rebuilt msg.
Proof.
  destruct (msg_text msg) as [s|e] eqn:E.
  - apply (rebuilt_str _ s). by apply rebuilt_text.
  - by rewrite !(rebuilt_raise _ _ E).
Qed.

Lemma msg_text_rebuilt msg : msg_text (rebuilt msg) = msg_text msg.
Proof.
  destruct (msg_text msg) as [s|e] eqn:E.
  - unfold msg_text at 1. by rewrite (rebuilt_text _ _ E).
  - by rewrite (rebuilt_raise _ _ E).
Qed.

Lemma index_msg_rebuilt sent_tokenize msg (is_question : gmap hkey bool) :
  index_msg sent_tokenize (rebuilt msg) is_question =
  index_msg sent_tokenize msg is_question.
Proof. by rewrite !index_msg_eq, rebuilt_idem, msg_text_rebuilt, rebuilt_key. Qed.

Lemma index_msg_fst sent_tokenize msg (is_question : gmap hkey bool) :
  fst (index_msg sent_tokenize msg is_question) = rebuilt msg.
Proof. by rewrite index_msg_eq. Qed.

Lemma index_loop_idem sent_tokenize msgs : forall (is_question : gmap hkey bool),
  index_loop sent_tokenize (fst (index_loop sent_tokenize msgs is_question))
    is_question
  = index_loop sent_tokenize msgs is_question.
Proof.
  induction msgs as [|msg rest IH]; intros iq; simpl; [done|].
  pose proof (index_msg_fst sent_tokenize msg iq) as Hfst.
  pose proof (index_msg_rebuilt sent_tokenize msg iq) as Hsame.
  destruct (index_msg sent_tokenize msg iq) as [msg1 [iq1|e]] eqn:E;
    simpl in Hfst; subst msg1.
  - specialize (IH iq1).
    destruct (index_loop sent_tokenize rest iq1) as [rest1 r1] eqn:E1.
    simpl in *. by rewrite Hsame, IH.
  - simpl. by rewrite Hsame.
Qed.

Lemma assoc_set_idem k v v' fields :
  assoc_set k v (assoc_set k v' fields) = assoc_set k v fields.
Proof.
  induction fields as [|[k0 v0] rest IH]; simpl.
  - by rewrite String.eqb_refl.
  - destruct (String.eqb k0 k) eqn:E; simpl; rewrite E; [done|]. by rewrite IH.
Qed.

(** [msg_has_question] tells nothing, but it has the effect of the
    rebuilding: it raises what reading or rebuilding the text raises and
    then leaves the message as it is; otherwise it leaves the message
    with the text as a string and its other fields untouched, and a
    second call changes nothing more. *)
Theorem msg_has_question_effect
    (sent_tokenize : string -> list string) (msg : json) :
  (forall e, msg_text msg = Raise e ->
     msg_has_question sent_tokenize msg = (msg, Raise e)) /\
  (forall s, msg_text msg = Ok s ->
     exists msg',
       msg_has_question sent_tokenize msg = (msg', Ok true) /\
       getitem msg' "text" = Ok (JStr s) /\
       (forall key, key <> "text" -> getitem msg' key = getitem msg key) /\
       msg_has_question sent_tokenize msg' = (msg', Ok true)).
Proof.
  unfold msg_has_question. split.
  - intros e He. rewrite store_rebuilt_text_eq, (rebuilt_raise _ _ He), He. done.
  - intros s Hs. exists (rebuilt msg).
    rewrite !store_rebuilt_text_eq, rebuilt_idem, msg_text_rebuilt, Hs. simpl.
    rewrite (sentences_of_rebuilt _ _ _ Hs). simpl.
    split; [done|]. split; [by apply rebuilt_text|].
    split; [|done]. intros key Hkey. by apply rebuilt_other_field.
Qed.

Lemma msg_has_question_effect_witness :
  exists msg',
    msg_has_question one_sentence example_segmented = (msg', Ok true) /\
    getitem msg' "text" = Ok (JStr "so what?") /\
    msg_has_question one_sentence example_no_text = (example_no_text, Raise KeyError).
Proof.
  destruct (msg_has_question_effect one_sentence example_segmented) as [_ Hok].
  destruct (Hok "so what?" eq_refl) as (msg' & Hcall & Htext & _).
  exists msg'. split; [exact Hcall|]. split; [exact Htext|].
  apply (proj1 (msg_has_question_effect one_sentence example_no_text)).
  reflexivity.
Defined.

(** A second call of [get_top_users] gives what the first gave, result or
    exception, and leaves the object as the first call left it. *)
Theorem get_top_users_idempotent
    (sent_tokenize : string -> list string) (self : ChatStatistics) (top_n : Z) :
  get_top_users sent_tokenize (fst (get_top_users sent_tokenize self top_n)) top_n
  = get_top_users sent_tokenize self top_n.
Proof.
  destruct (getitem (chat_data self) "messages") as [messages|e] eqn:Hmsgs.
  2: { unfold get_top_users. rewrite Hmsgs. simpl. by rewrite Hmsgs. }
  destruct (py_iter messages) as [msgs|e] eqn:Hiter.
  2: { unfold get_top_users. rewrite Hmsgs, Hiter. simpl.
       by rewrite Hmsgs, Hiter. }
  pose proof (index_loop_idem sent_tokenize msgs ∅) as Hidem.
  destruct (index_loop sent_tokenize msgs ∅) as [msgs' r] eqn:Hloop.
  cbn [fst] in Hidem.
  unfold get_top_users. rewrite Hmsgs, Hiter, Hloop.
  cbn [fst chat_data stop_words].
  destruct (chat_data self) as [| b | n | s | items | fields] eqn:Hdata;
    try discriminate Hmsgs.
  destruct messages as [| b | n | s | items | keyed];
    cbn [store_messages]; try (by rewrite Hmsgs, Hiter, Hloop).
  injection Hiter as <-.
  cbn [getitem]. rewrite assoc_get_set_eq. cbn [py_iter].
  by rewrite Hidem, assoc_set_idem.
Qed.

Lemma index_loop_raise_step sent_tokenize pre msg msg' post e :
  forall (is_question : gmap hkey bool),
  Forall (fun x => wf_message x = true) pre ->
  (forall iq : gmap hkey bool, index_msg sent_tokenize msg iq = (msg', Raise e)) ->
  index_loop sent_tokenize (pre ++ msg :: post) is_question =
  (map rebuilt pre ++ msg' :: post, Raise e).
Proof.
  intros iq Hwf Hmsg. revert iq.
  induction Hwf as [|x pre Hx Hpre IH]; intros iq; simpl.
  - by rewrite Hmsg.
  - destruct (index_loop_wf sent_tokenize [x] iq) as [iq1 Hone];
      [by constructor|].
    simpl in Hone.
    destruct (index_msg sent_tokenize x iq) as [x1 [iq2|e2]]; [|done].
    injection Hone as -> ->. by rewrite IH.
Qed.

(** A call that fails on a message whose text cannot be read or rebuilt
    has already rebuilt the messages before it: they stay rebuilt, the
    message itself and those after it are as they were, and so is the
    rest of the export. *)
Theorem failing_call_keeps_rebuilt_prefix
    (sent_tokenize : string -> list string) (self : ChatStatistics) (top_n : Z)
    (pre post : list json) (msg : json) (e : exn) :
  getitem (chat_data self) "messages" = Ok (JList (pre ++ msg :: post)) ->
  Forall (fun x => wf_message x = true) pre ->
  msg_text msg = Raise e ->
  snd (get_top_users sent_tokenize self top_n) = Raise e /\
  getitem (chat_data (fst (get_top_users sent_tokenize self top_n))) "messages"
  = Ok (JList (map rebuilt pre ++ msg :: post)) /\
  (forall key, key <> "messages" ->
     getitem (chat_data (fst (get_top_users sent_tokenize self top_n))) key
     = getitem (chat_data self) key).
Proof.
  intros Hmsgs Hwf Htext.
  rewrite (get_top_users_unfold _ _ _ _ Hmsgs).
  rewrite (index_loop_raise_at _ _ _ _ e) by done. cbn [fst snd chat_data].
  destruct (store_messages_lookup _ _ (map rebuilt pre ++ msg :: post) Hmsgs)
    as [Hnew Hframe].
  done.
Qed.

Lemma failing_call_keeps_rebuilt_prefix_witness :
  snd (get_top_users one_sentence example_broken 10) = Raise KeyError /\
  getitem (chat_data (fst (get_top_users one_sentence example_broken 10))) "messages"
  = Ok (JList [JDict [("id", JInt 1); ("from", JStr "A"); ("text", JStr "so what?")];
               example_no_text; example_after]).
Proof.
  destruct (failing_call_keeps_rebuilt_prefix one_sentence example_broken 10
              [example_segmented] [example_after] example_no_text KeyError eq_refl)
    as (Hraise & Hstate & _); [by repeat constructor|reflexivity|].
  split; [exact Hraise|exact Hstate].
Defined.

(** The [id] of a message is read only when one of its sentences has a
    question mark: a message without [id] goes through the first loop when
    it asks nothing, and makes [get_top_users] raise [KeyError], its text
    already rebuilt, when it asks something. *)
Theorem id_read_only_for_questions
    (sent_tokenize : string -> list string) (msg : json) (s : string) :
  msg_text msg = Ok s ->
  getitem msg "id" = Raise KeyError ->
  (has_question (sent_tokenize s) = false ->
   forall is_question : gmap hkey bool,
     index_msg sent_tokenize msg is_question = (rebuilt msg, Ok is_question)) /\
  (has_question (sent_tokenize s) = true ->
   forall self top_n pre post,
     getitem (chat_data self) "messages" = Ok (JList (pre ++ msg :: post)) ->
     Forall (fun x => wf_message x = true) pre ->
     snd (get_top_users sent_tokenize self top_n) = Raise KeyError /\
     getitem (chat_data (fst (get_top_users sent_tokenize self top_n))) "messages"
     = Ok (JList (map rebuilt pre ++ rebuilt msg :: post))).
Proof.
  intros Hs Hid. split; intros Hq.
  - intros iq. by rewrite index_msg_eq, Hs; simpl; rewrite Hq.
  - intros self top_n pre post Hmsgs Hwf.
    rewrite (get_top_users_unfold _ _ _ _ Hmsgs).
    rewrite (index_loop_raise_step _ _ _ (rebuilt msg) _ KeyError); [|done|].
    + cbn [fst snd chat_data].
      by destruct (store_messages_lookup _ _
                     (map rebuilt pre ++ rebuilt msg :: post) Hmsgs).
    + intros iq. rewrite index_msg_eq, Hs. simpl. rewrite Hq.
      unfold msg_key. by rewrite Hid.
Qed.

Lemma id_read_only_for_questions_witness :
  snd (get_top_users one_sentence example_no_id_stats 10) = Raise KeyError /\
  getitem (chat_data (fst (get_top_users one_sentence example_no_id_stats 10)))
    "messages"
  = Ok (JList [JDict [("id", JInt 1); ("from", JStr "A"); ("text", JStr "so what?")];
               JDict [("from", JStr "B"); ("text", JStr "who knows?")];
               example_after]).
Proof.
  destruct (id_read_only_for_questions one_sentence example_no_id "who knows?"
              eq_refl eq_refl) as [_ Hraise].
  apply (Hraise eq_refl example_no_id_stats 10 [example_segmented] [example_after]
           eq_refl).
  by repeat constructor.
Defined.

(** ** Replies that are not counted *)

(** A message whose [reply_to_message_id] is a value Python takes for
    false (0, [null], [false], the empty string) is passed over before the
    index is looked at: a reply to the message with id 0 is never a vote. *)
Theorem falsy_reply_no_vote
    (sent_tokenize : string -> list string) (self : ChatStatistics) (top_n : Z)
    (pre post msgs' : list json) (msg reply : json)
    (is_question : gmap hkey bool) :
  getitem (chat_data self) "messages" = Ok (JList (pre ++ msg :: post)) ->
  index_loop sent_tokenize (pre ++ msg :: post) ∅ = (msgs', Ok is_question) ->
  dict_get msg "reply_to_message_id" = Ok reply ->
  truthy reply = false ->
  snd (get_top_users sent_tokenize self top_n) =
  (let* users := vote_loop (map rebuilt (pre ++ post)) is_question [] in
   let* counts := Counter users in
   Ok (py_dict (most_common counts top_n))).
Proof.
  intros Hmsgs Hloop Hreply Hfalsy.
  rewrite (get_top_users_result _ _ _ _ Hmsgs), Hloop. simpl.
  rewrite (vote_loop_votes _ is_question is_question []) by done.
  rewrite votes_rebuilt, !votes_app. simpl.
  assert (vote is_question msg = Ok None) as ->
    by (unfold vote; rewrite Hreply; simpl; by rewrite Hfalsy).
  simpl.
  destruct (votes is_question pre) as [a|e]; simpl; [|done].
  by destruct (votes is_question post) as [b|e].
Qed.

Lemma falsy_reply_no_vote_witness :
  exists msgs' is_question,
    index_loop one_sentence ([example_question_zero] ++ example_reply_zero :: []) ∅
    = (msgs', Ok is_question) /\
    is_question !! KInt 0 = Some true /\
    snd (get_top_users one_sentence example_zero 10) = Ok [].
Proof.
  eexists _, _. split; [reflexivity|]. split; [reflexivity|].
  erewrite (falsy_reply_no_vote one_sentence example_zero 10
              [example_question_zero] [] _ example_reply_zero (JInt 0));
    reflexivity.
Defined.

(** ** What the counts are *)

Lemma count_of_incr h elem counts :
  is_ok (py_hash elem) = true ->
  Forall (fun kv => is_ok (py_hash (fst kv)) = true) counts ->
  count_of h (count_incr elem counts) =
  count_of h counts + (if decide (hk elem = h) then 1 else 0).
Proof.
  intros Helem. induction 1 as [|[k c] rest Hk Hrest IH]; simpl.
  - destruct (decide (hk elem = h)); lia.
  - simpl in Hk. rewrite same_key_hk by done.
    case_bool_decide as Hsame; simpl.
    + destruct (decide (hk k = h)), (decide (hk elem = h)); try lia; congruence.
    + destruct (decide (hk k = h)), (decide (hk elem = h)); try lia; congruence.
Qed.

Lemma count_key_cons h u users :
  count_key h (u :: users) =
  (if decide (hk u = h) then 1 else 0) + count_key h users.
Proof.
  unfold count_key. rewrite filter_cons.
  destruct (decide (hk u = h)); simpl; lia.
Qed.

Lemma counter_update_count h elems : forall counts counts',
  distinct_keys counts ->
  counter_update elems counts = Ok counts' ->
  count_of h counts' = count_of h counts + count_key h elems.
Proof.
  induction elems as [|elem rest IH]; intros counts counts' Hd; simpl.
  - intros [= <-]. unfold count_key. simpl. lia.
  - destruct (py_hash elem) as [x|] eqn:E; simpl; [|done].
    assert (is_ok (py_hash elem) = true) as Helem by (by rewrite E).
    intros Hrest.
    rewrite (IH _ _ (count_incr_distinct _ _ Helem Hd) Hrest).
    rewrite count_of_incr, count_key_cons by (done || apply Hd). lia.
Qed.

Lemma count_of_entry counts k c :
  distinct_keys counts -> (k, c) ∈ counts -> count_of (hk k) counts = c.
Proof.
  intros [_ Hnodup]. induction counts as [|[k0 c0] rest IH]; simpl.
  - by intros ?%elem_of_nil.
  - simpl in Hnodup. apply NoDup_cons in Hnodup as [Hnotin Hnodup].
    intros [[= -> ->]|Hin]%elem_of_cons.
    + by rewrite decide_True.
    + rewrite decide_False; [by apply IH|].
      intros Heq. apply Hnotin. rewrite Heq.
      by apply (list_elem_of_fmap_2 (fun kv => hk (fst kv)) rest (k, c)).
Qed.

Lemma count_of_nonzero h counts :
  count_of h counts <> 0 -> exists k c, (k, c) ∈ counts /\ hk k = h.
Proof.
  induction counts as [|[k0 c0] rest IH]; simpl; [done|].
  destruct (decide (hk k0 = h)) as [Heq|Hne].
  - intros _. exists k0, c0. split; [apply list_elem_of_here|done].
  - intros (k & c & Hin & Hk)%IH. exists k, c.
    split; [by apply list_elem_of_further|done].
Qed.

Lemma count_incr_positive elem counts :
  Forall (fun kv => 1 <= snd kv) counts ->
  Forall (fun kv => 1 <= snd kv) (count_incr elem counts).
Proof.
  induction 1 as [|[k c] rest Hk Hrest IH]; simpl.
  - by repeat constructor.
  - destruct (same_key k elem); constructor; simpl in *; try done. lia.
Qed.

Lemma counter_update_positive elems : forall counts counts',
  Forall (fun kv => 1 <= snd kv) counts ->
  counter_update elems counts = Ok counts' ->
  Forall (fun kv => 1 <= snd kv) counts'.
Proof.
  induction elems as [|elem rest IH]; intros counts counts' Hpos; simpl.
  - by intros [= <-].
  - destruct (py_hash elem); simpl; [|done].
    by apply IH, count_incr_positive.
Qed.

Lemma count_incr_length elem counts :
  (List.length (count_incr elem counts) <= S (List.length counts))%nat.
Proof.
  induction counts as [|[k c] rest IH]; simpl; [lia|].
  destruct (same_key k elem); simpl; lia.
Qed.

Lemma counter_update_length elems : forall counts counts',
  counter_update elems counts = Ok counts' ->
  (List.length counts' <= List.length counts + List.length elems)%nat.
Proof.
  induction elems as [|elem rest IH]; intros counts counts'; simpl.
  - intros [= <-]. lia.
  - destruct (py_hash elem); simpl; [|done].
    intros H%IH. pose proof (count_incr_length elem counts). lia.
Qed.

Lemma most_common_subset counts n kv :
  kv ∈ most_common counts n -> kv ∈ counts.
Proof.
  unfold most_common. intros Hin.
  rewrite <- sort_desc_perm.
  by eapply subseteq_take, Hin.
Qed.

Lemma most_common_all counts n :
  Z.of_nat (List.length counts) <= n -> most_common counts n = sort_desc counts.
Proof.
  intros Hn. unfold most_common. apply take_ge.
  rewrite (Permutation_length (sort_desc_perm counts)). lia.
Qed.

(** The users of a successful run of the second loop are counted one by
    one: everything about the result follows from the list of votes. *)
Lemma get_top_users_counts sent_tokenize self top_n msgs msgs' res
    (is_question : gmap hkey bool) users :
  getitem (chat_data self) "messages" = Ok (JList msgs) ->
  index_loop sent_tokenize msgs ∅ = (msgs', Ok is_question) ->
  vote_loop msgs' is_question [] = Ok users ->
  snd (get_top_users sent_tokenize self top_n) = Ok res ->
  exists counts,
    Counter users = Ok counts /\ res = most_common counts top_n /\
    distinct_keys counts /\ Forall (fun kv => 1 <= snd kv) counts /\
    (forall h, count_of h counts = count_key h users) /\
    (List.length counts <= List.length users)%nat.
Proof.
  intros Hmsgs Hloop Hvotes.
  rewrite (get_top_users_unfold _ _ _ _ Hmsgs), Hloop. simpl.
  rewrite Hvotes. simpl.
  destruct (Counter users) as [counts|] eqn:Hcounts; simpl; [|done].
  pose proof (Counter_distinct _ _ Hcounts) as Hd.
  rewrite py_dict_distinct by (by apply most_common_distinct).
  intros [= <-]. exists counts.
  assert (distinct_keys []) as Hnil
    by (split; [constructor|apply NoDup_nil_2]).
  repeat split; try done; try apply Hd.
  - apply (counter_update_positive users [] counts); [constructor|exact Hcounts].
  - intros h. by rewrite (counter_update_count h users [] counts Hnil Hcounts).
  - apply (counter_update_length users [] counts Hcounts).
Qed.

(** The count returned for a sender is the number of votes the second
    loop gathered for that sender, it is at least 1, and no sender is
    returned twice; when [top_n] is not less than the number of votes,
    every sender with a vote is returned. *)
Theorem counts_are_numbers_of_votes
    (sent_tokenize : string -> list string) (self : ChatStatistics) (top_n : Z)
    (msgs msgs' : list json) (is_question : gmap hkey bool)
    (users : list json) (res : list (json * Z)) :
  getitem (chat_data self) "messages" = Ok (JList msgs) ->
  index_loop sent_tokenize msgs ∅ = (msgs', Ok is_question) ->
  vote_loop msgs' is_question [] = Ok users ->
  snd (get_top_users sent_tokenize self top_n) = Ok res ->
  (forall sender c, (sender, c) ∈ res ->
     c = count_key (hk sender) users /\ 1 <= c) /\
  NoDup ((fun kv => hk (fst kv)) <$> res) /\
  (Z.of_nat (List.length users) <= top_n ->
   forall user, user ∈ users ->
     exists sender c, (sender, c) ∈ res /\ hk sender = hk user).
Proof.
  intros Hmsgs Hloop Hvotes Hres.
  destruct (get_top_users_counts _ _ _ _ _ _ _ _ Hmsgs Hloop Hvotes Hres)
    as (counts & Hcounts & -> & Hd & Hpos & Hcount & Hlen).
  split; [|split].
  - intros sender c Hin%most_common_subset. split.
    + by rewrite <- Hcount, (count_of_entry _ _ _ Hd Hin).
    + by apply (proj1 (Forall_forall _ _) Hpos (sender, c)).
  - by apply most_common_distinct.
  - intros Hn user Huser.
    rewrite most_common_all by lia.
    destruct (count_of_nonzero (hk user) counts) as (k & c & Hin & Hk).
    + rewrite Hcount. unfold count_key.
      assert (user ∈ filter (fun u => hk u = hk user) users) as Hf
        by (by apply list_elem_of_filter).
      destruct (filter _ users); [by apply elem_of_nil in Hf|]. simpl. lia.
    + exists k, c. split; [|done]. by rewrite sort_desc_perm.
Qed.

Lemma counts_are_numbers_of_votes_witness :
  snd (get_top_users one_sentence example_stats 10) = Ok [(JStr "B", 2)] /\
  2 = count_key (hk (JStr "B")) [JStr "B"; JStr "B"].
Proof.
  split; [reflexivity|].
  destruct (counts_are_numbers_of_votes one_sentence example_stats 10
              (example_messages ++ [example_dangling]) _ _
              [JStr "B"; JStr "B"] [(JStr "B", 2)] eq_refl eq_refl eq_refl eq_refl)
    as (Hcount & _).
  apply (Hcount (JStr "B") 2). apply list_elem_of_here.
Defined.

(** ** Votes do not depend on where the question stands *)

Lemma votes_elem is_question msgs : forall users msg user,
  votes is_question msgs = Ok users ->
  msg ∈ msgs -> vote is_question msg = Ok (Some user) -> user ∈ users.
Proof.
  induction msgs as [|m rest IH]; intros users msg user; simpl.
  - by intros _ ?%elem_of_nil.
  - destruct (vote is_question m) as [v|] eqn:Hv; simpl; [|done].
    destruct (votes is_question rest) as [vs|] eqn:Hvs; simpl; [|done].
    intros [= <-] [->|Hin]%elem_of_cons Hvote.
    + rewrite Hv in Hvote. injection Hvote as ->. simpl. apply list_elem_of_here.
    + apply elem_of_app. right. by eapply IH.
Qed.

Lemma votes_length is_question msgs : forall users,
  votes is_question msgs = Ok users ->
  (List.length users <= List.length msgs)%nat.
Proof.
  induction msgs as [|m rest IH]; intros users; simpl.
  - intros [= <-]. simpl. lia.
  - destruct (vote is_question m) as [v|]; simpl; [|done].
    destruct (votes is_question rest) as [vs|]; simpl; [|done].
    intros [= <-]. specialize (IH vs eq_refl).
    rewrite length_app. destruct v; simpl; lia.
Qed.

(** The index is complete before any reply is looked at: the sender of a
    reply is returned, with a count of at least 1, whether the question it
    answers stands before or after it in the export ([top_n] being at
    least the number of messages, so that nobody is cut off). *)
Theorem reply_counts_wherever_question_stands
    (sent_tokenize : string -> list string) (self : ChatStatistics) (top_n : Z)
    (msgs : list json) (res : list (json * Z))
    (reply question reply_id user : json) (h : hkey) (s : string) :
  getitem (chat_data self) "messages" = Ok (JList msgs) ->
  snd (get_top_users sent_tokenize self top_n) = Ok res ->
  Z.of_nat (List.length msgs) <= top_n ->
  reply ∈ msgs ->
  question ∈ msgs ->
  dict_get reply "reply_to_message_id" = Ok reply_id ->
  truthy reply_id = true ->
  py_hash reply_id = Ok h ->
  msg_key question = Ok h ->
  msg_text question = Ok s ->
  has_question (sent_tokenize s) = true ->
  getitem reply "from" = Ok user ->
  exists sender c, (sender, c) ∈ res /\ hk sender = hk user /\ 1 <= c.
Proof.
  intros Hmsgs Hres Hn Hreply Hquestion Hid Htruthy Hhash Hkey Hs Hq Hfrom.
  rewrite (get_top_users_result _ _ _ _ Hmsgs) in Hres.
  destruct (index_loop sent_tokenize msgs ∅) as [msgs' [iq|]] eqn:Hloop;
    simpl in Hres; [|done].
  destruct (votes iq msgs) as [users|] eqn:Hvotes; simpl in Hres; [|done].
  destruct (Counter users) as [counts|] eqn:Hcounts; simpl in Hres; [|done].
  injection Hres as <-.
  pose proof (Counter_distinct _ _ Hcounts) as Hd.
  rewrite py_dict_distinct by (by apply most_common_distinct).
  assert (distinct_keys []) as Hnil
    by (split; [constructor|apply NoDup_nil_2]).
  assert (flagged iq h = true) as Hflag.
  { unfold flagged. destruct (index_loop_ok _ _ _ _ _ Hloop) as [_ ->].
    assert (existsb (asks sent_tokenize h) msgs = true) as ->; [|done].
    apply existsb_exists. exists question.
    split; [by apply list_elem_of_In|].
    by rewrite (asks_eq _ _ _ _ Hs Hkey). }
  assert (vote iq reply = Ok (Some user)) as Hvote.
  { unfold vote. rewrite Hid. simpl. rewrite Htruthy. simpl.
    assert (getitem reply "reply_to_message_id" = Ok reply_id) as ->.
    { destruct reply as [| b | n | s0 | items | fields]; try done. simpl in *.
      destruct (assoc_get "reply_to_message_id" fields); [done|].
      by injection Hid as <-. }
    simpl. rewrite Hhash. simpl. by rewrite Hflag, Hfrom. }
  pose proof (votes_elem _ _ _ _ _ Hvotes Hreply Hvote) as Huser.
  pose proof (votes_length _ _ _ Hvotes) as Hlen.
  pose proof (counter_update_length users [] counts Hcounts) as Hlen'.
  simpl in Hlen'.
  rewrite most_common_all by lia.
  destruct (count_of_nonzero (hk user) counts) as (k & c & Hin & Hk).
  - rewrite (counter_update_count (hk user) users [] counts Hnil Hcounts).
    simpl. unfold count_key.
    assert (user ∈ filter (fun u => hk u = hk user) users) as Hf
      by (by apply list_elem_of_filter).
    destruct (filter _ users); [by apply elem_of_nil in Hf|]. simpl. lia.
  - exists k, c. split; [by rewrite sort_desc_perm|]. split; [done|].
    apply (proj1 (Forall_forall _ _)
             (counter_update_positive users [] counts (Forall_nil_2 _) Hcounts)
             (k, c) Hin).
Qed.

Lemma reply_counts_wherever_question_stands_witness :
  snd (get_top_users one_sentence example_reversed 10) = Ok [(JStr "B", 1)] /\
  exists sender c,
    (sender, c) ∈ [(JStr "B", 1)] /\ hk sender = hk (JStr "B") /\ 1 <= c.
Proof.
  split; [reflexivity|].
  apply (reply_counts_wherever_question_stands one_sentence example_reversed 10
           [example_early_reply; example_late_question] [(JStr "B", 1)]
           example_early_reply example_late_question (JInt 2) (JStr "B")
           (KInt 2) "what is the answer?");
    try reflexivity; try (simpl; lia).
  - apply list_elem_of_here.
  - apply list_elem_of_further, list_elem_of_here.
Defined.

(** ** Ties, and a [top_n] that is not positive *)








(** With a [top_n] of zero or less, [get_top_users] returns the empty
    mapping whenever it returns. *)
Theorem get_top_users_nothing_for_nonpositive_top_n
    (sent_tokenize : string -> list string) (self : ChatStatistics) (top_n : Z)
    (res : list (json * Z)) :
  top_n <= 0 ->
  snd (get_top_users sent_tokenize self top_n) = Ok res ->
  res = [].
Proof.
  intros Hn. unfold get_top_users.
  destruct (getitem (chat_data self) "messages") as [messages|]; [|done].
  destruct (py_iter messages) as [msgs|]; [|done].
  destruct (index_loop sent_tokenize msgs ∅) as [msgs' [iq|]]; simpl; [|done].
  destruct (vote_loop msgs' iq []) as [users|]; simpl; [|done].
  destruct (Counter users) as [counts|]; simpl; [|done].
  intros [= <-]. unfold most_common.
  by replace (Z.to_nat top_n) with 0%nat by lia.
Qed.

Lemma get_top_users_nothing_for_nonpositive_top_n_witness :
  snd (get_top_users one_sentence example_stats (-3)) = Ok [].
Proof.
  destruct (snd (get_top_users one_sentence example_stats (-3))) as [res|e] eqn:E;
    [|exfalso; vm_compute in E; discriminate E].
  f_equal.
  apply (get_top_users_nothing_for_nonpositive_top_n one_sentence example_stats
           (-3) res); [lia|exact E].
Defined.

(** ** When the word cloud is made, and of what *)

Lemma cloud_loop_is_ok word_tokenize stop_words msgs : forall acc,
  is_ok (cloud_loop word_tokenize stop_words msgs acc) =
  forallb (fun msg => is_ok (getitem msg "text")) msgs.
Proof.
  induction msgs as [|msg rest IH]; intros acc; simpl; [done|].
  destruct (getitem msg "text") as [t|]; simpl; [|done].
  destruct t; apply IH.
Qed.

Lemma cloud_loop_first_failure word_tokenize stop_words pre msg post e :
  forall acc,
  Forall (fun m => is_ok (getitem m "text") = true) pre ->
  getitem msg "text" = Raise e ->
  cloud_loop word_tokenize stop_words (pre ++ msg :: post) acc = Raise e.
Proof.
  intros acc Hpre Hmsg. revert acc.
  induction Hpre as [|m pre Hm Hpre IH]; intros acc; simpl.
  - by rewrite Hmsg.
  - destruct (getitem m "text") as [t|]; simpl; [|done].
    destruct t; apply IH.
Qed.

(** [generate_word_cloud] asks only that every message has a [text],
    whatever it is: it gets to the rendering exactly when each message is
    a record with a [text] key, and otherwise raises what the subscript
    raises on the first message that has none. *)
Theorem generate_word_cloud_needs_only_text_keys
    (normalize : string -> string) (word_tokenize : string -> list string)
    (reshape get_display : string -> string) (DATA_DIR : string)
    (self : ChatStatistics) (output_dir : string)
    (width height max_font_size : Z) (msgs : list json) :
  getitem (chat_data self) "messages" = Ok (JList msgs) ->
  is_ok (generate_word_cloud normalize word_tokenize reshape get_display
           DATA_DIR self output_dir width height max_font_size)
  = forallb (fun msg => is_ok (getitem msg "text")) msgs /\
  (forall pre msg post e,
     msgs = pre ++ msg :: post ->
     Forall (fun m => is_ok (getitem m "text") = true) pre ->
     getitem msg "text" = Raise e ->
     generate_word_cloud normalize word_tokenize reshape get_display
       DATA_DIR self output_dir width height max_font_size = Raise e).
Proof.
  intros Hmsgs. unfold generate_word_cloud, load_text_content.
  rewrite Hmsgs. simpl. split.
  - rewrite <- (cloud_loop_is_ok word_tokenize (stop_words self) msgs "").
    by destruct (cloud_loop word_tokenize (stop_words self) msgs "").
  - intros pre msg post e -> Hpre Hmsg.
    by rewrite (cloud_loop_first_failure _ _ _ _ _ e).
Qed.

Lemma generate_word_cloud_needs_only_text_keys_witness :
  is_ok (generate_word_cloud persian_digits space_words id id "data"
           example_no_id_stats "out" 800 600 60) = true /\
  generate_word_cloud persian_digits space_words id id "data"
    example_broken "out" 800 600 60 = Raise KeyError.
Proof.
  split.
  - rewrite (proj1 (generate_word_cloud_needs_only_text_keys persian_digits
                      space_words id id "data" example_no_id_stats "out"
                      800 600 60 _ eq_refl)).
    reflexivity.
  - apply (proj2 (generate_word_cloud_needs_only_text_keys persian_digits
                    space_words id id "data" example_broken "out"
                    800 600 60 _ eq_refl)
             [example_segmented] example_no_text [example_after] KeyError);
      [reflexivity|by repeat constructor|reflexivity].
Defined.

(** When every message has a [text], the word cloud is made of the texts
    that are strings, in the order of the messages: each gives a space and
    then its tokens that are not stop words, with single spaces between
    them; the whole is normalized, reshaped and put in display order. *)
Theorem generate_word_cloud_text
    (normalize : string -> string) (word_tokenize : string -> list string)
    (reshape get_display : string -> string) (DATA_DIR : string)
    (self : ChatStatistics) (output_dir : string)
    (width height max_font_size : Z) (msgs : list json) :
  getitem (chat_data self) "messages" = Ok (JList msgs) ->
  Forall (fun msg => is_ok (getitem msg "text") = true) msgs ->
  exists rc,
    generate_word_cloud normalize word_tokenize reshape get_display
      DATA_DIR self output_dir width height max_font_size = Ok rc /\
    rc_text rc =
      get_display (reshape (normalize
        (foldr (fun s rest =>
                  " " +:+ join " " (filter (fun token => token ∉ stop_words self)
                                           (word_tokenize s)) +:+ rest)
               "" (plain_texts msgs)))).
Proof.
  intros Hmsgs Hok. unfold generate_word_cloud, load_text_content.
  rewrite Hmsgs. simpl. rewrite (cloud_loop_blob _ _ _ _ Hok). simpl.
  eexists. split; [done|]. simpl.
  do 3 f_equal.
Qed.

Lemma generate_word_cloud_text_witness :
  exists rc,
    generate_word_cloud persian_digits space_words id id "data"
      example_stats "out" 800 600 60 = Ok rc /\
    rc_text rc = " Is this true? yes is sunny what?".
Proof.
  destruct (generate_word_cloud_text persian_digits space_words id id "data"
              example_stats "out" 800 600 60
              (example_messages ++ [example_dangling]) eq_refl)
    as (rc & Hcall & Htext); [by repeat constructor|].
  exists rc. split; [exact Hcall|]. rewrite Htext. by vm_compute.
Defined.

(** ** The stop words *)

Lemma lstrip_no_space w : has_space w = false -> lstrip (w +:+ newline) = w +:+ newline \/ w = "".
Proof.
  destruct w as [|c w]; [by right|]. cbn [has_space].
  intros [Hc _]%orb_false_elim. left.
  rewrite string_append_cons. cbn [lstrip]. by rewrite Hc.
Qed.

Lemma rstrip_word_newline w : has_space w = false -> rstrip (w +:+ newline) = w.
Proof.
  induction w as [|c w IH]; [done|]. cbn [has_space].
  intros [Hc Hw]%orb_false_elim.
  rewrite string_append_cons. cbn [rstrip]. rewrite (IH Hw), Hc.
  by destruct w.
Qed.

Lemma strip_word_newline w : has_space w = false -> strip (w +:+ newline) = w.
Proof.
  intros Hw. unfold strip.
  destruct (lstrip_no_space w Hw) as [-> | ->]; [by apply rstrip_word_newline|done].
Qed.

(** Loading: a file of stop words with one word to a line, each word free
    of white space and followed by a line feed, gives the set of the
    normalized words; the export is kept as it was loaded. *)
Theorem init_stop_words
    (normalize : string -> string) (chat_json : json) (words : list string) :
  Forall (fun w => no_white_space w = true) words ->
  stop_words (init normalize chat_json (map (fun w => w +:+ newline) words))
  = list_to_set (map normalize words) /\
  chat_data (init normalize chat_json (map (fun w => w +:+ newline) words))
  = chat_json.
Proof.
  intros Hwords. split; [|done]. unfold init. simpl. do 2 f_equal.
  induction Hwords as [|w rest Hw _ IH]; simpl; [done|].
  apply andb_prop in Hw as [Hw%negb_true_iff _].
  by rewrite (strip_word_newline _ Hw), IH.
Qed.

Lemma init_stop_words_witness :
  stop_words (init persian_digits example_export
                (map (fun w => w +:+ newline) ["va"; "dar"; "1"]))
  = list_to_set (map persian_digits ["va"; "dar"; "1"]).
Proof.
  apply (init_stop_words persian_digits example_export ["va"; "dar"; "1"]).
  by repeat constructor.
Defined.

(** ** Ids that are shared, exports that are not lists, senders that are
    not hashable *)

Lemma question_index_general_witness :
  exists msgs' is_question,
    index_loop one_sentence example_shared_id ∅ = (msgs', Ok is_question) /\
    is_question !! KInt 7 = Some true /\
    is_question !! KInt 8 <> Some false.
Proof.
  destruct (index_loop one_sentence example_shared_id ∅) as [msgs' [iq|e]] eqn:Hloop;
    [|exfalso; vm_compute in Hloop; discriminate Hloop].
  exists msgs', iq. split; [reflexivity|].
  destruct (question_index_general one_sentence example_shared_id msgs' iq
              (KInt 7) Hloop) as [Htrue _].
  destruct (question_index_general one_sentence example_shared_id msgs' iq
              (KInt 8) Hloop) as [_ Hfalse].
  split; [|exact Hfalse].
  apply Htrue. eexists _, "anyone there?". split.
  - apply list_elem_of_further, list_elem_of_here.
  - by repeat split.
Defined.

Lemma code_points_from_cons cur s :
  exists x rest, code_points_from cur s = x :: rest.
Proof.
  revert cur. induction s as [|c s IH]; intros cur; simpl; [by eexists _, _|].
  destruct (is_continuation c); [apply IH|by eexists _, _].
Qed.

Lemma index_loop_string sent_tokenize x rest (is_question : gmap hkey bool) :
  index_loop sent_tokenize (JStr x :: rest) is_question =
  (JStr x :: rest, Raise TypeError).
Proof. done. Qed.

(** When [messages] is not a list: a number, a boolean or [null] cannot be
    iterated over; a record or a string gives its keys or its characters
    as messages, and the first of them has no [text] to subscript; only
    the empty record and the empty string pass, with an empty result.
    The object is left as it was. *)
Theorem get_top_users_messages_not_a_list
    (sent_tokenize : string -> list string) (self : ChatStatistics) (top_n : Z)
    (messages : json) :
  getitem (chat_data self) "messages" = Ok messages ->
  (forall msgs, messages <> JList msgs) ->
  get_top_users sent_tokenize self top_n =
  (self,
   match messages with
   | JDict [] | JStr EmptyString => Ok []
   | _ => Raise TypeError
   end).
Proof.
  intros Hmsgs Hlist. unfold get_top_users. rewrite Hmsgs.
  assert ({| chat_data := chat_data self; stop_words := stop_words self |} = self)
    as Heta by (by destruct self).
  assert (most_common [] top_n = []) as Hnil
    by (unfold most_common; simpl; by rewrite take_nil).
  destruct messages as [| b | n | s | items | fields]; simpl; try done.
  - destruct s as [|c s]; simpl.
    + rewrite Hnil, <- Heta at 1. f_equal. by destruct (chat_data self).
    + destruct (code_points_from_cons (String c "") s) as (x & rest & ->).
      simpl. rewrite <- Heta at 3. f_equal. by destruct (chat_data self).
  - by destruct (Hlist items).
  - destruct fields as [|[k v] fields]; simpl.
    + rewrite Hnil, <- Heta at 1. f_equal. by destruct (chat_data self).
    + rewrite <- Heta at 3. f_equal. by destruct (chat_data self).
Qed.

Lemma get_top_users_messages_not_a_list_witness :
  get_top_users one_sentence
    {| chat_data := JDict [("messages", JDict [("1", example_question)])];
       stop_words := ∅ |} 10
  = ({| chat_data := JDict [("messages", JDict [("1", example_question)])];
        stop_words := ∅ |}, Raise TypeError).
Proof.
  apply (get_top_users_messages_not_a_list one_sentence
           {| chat_data := JDict [("messages", JDict [("1", example_question)])];
              stop_words := ∅ |} 10 (JDict [("1", example_question)]));
    [reflexivity|discriminate].
Defined.

Lemma counter_update_unhashable elems user : forall counts,
  user ∈ elems -> is_ok (py_hash user) = false ->
  counter_update elems counts = Raise TypeError.
Proof.
  induction elems as [|elem rest IH]; intros counts; simpl.
  - by intros ?%elem_of_nil.
  - intros [->|Hin]%elem_of_cons Hbad.
    + destruct elem; simpl in *; done.
    + destruct (py_hash elem) as [x|e] eqn:E; simpl; [by apply IH|].
      destruct elem; simpl in E; congruence.
Qed.

(** The senders are only checked when they are counted: a vote whose
    [from] is a list or a record passes both loops, and then [Counter]
    raises [TypeError], all the texts being rebuilt by then. *)
Theorem unhashable_sender_raises_after_the_loops
    (sent_tokenize : string -> list string) (self : ChatStatistics) (top_n : Z)
    (msgs msgs' : list json) (is_question : gmap hkey bool)
    (users : list json) (user : json) :
  getitem (chat_data self) "messages" = Ok (JList msgs) ->
  index_loop sent_tokenize msgs ∅ = (msgs', Ok is_question) ->
  vote_loop msgs' is_question [] = Ok users ->
  user ∈ users ->
  is_ok (py_hash user) = false ->
  snd (get_top_users sent_tokenize self top_n) = Raise TypeError /\
  getitem (chat_data (fst (get_top_users sent_tokenize self top_n))) "messages"
  = Ok (JList (map rebuilt msgs)).
Proof.
  intros Hmsgs Hloop Hvotes Huser Hbad.
  rewrite (get_top_users_unfold _ _ _ _ Hmsgs), Hloop. cbn [fst snd chat_data].
  destruct (index_loop_ok _ _ _ _ _ Hloop) as [-> _].
  split.
  - cbn [bind]. rewrite Hvotes. cbn [bind]. unfold Counter.
    by rewrite (counter_update_unhashable users user []).
  - by destruct (store_messages_lookup _ _ (map rebuilt msgs) Hmsgs).
Qed.

Lemma unhashable_sender_raises_after_the_loops_witness :
  snd (get_top_users one_sentence example_list_sender 10) = Raise TypeError.
Proof.
  eapply (proj1 (unhashable_sender_raises_after_the_loops one_sentence
                   example_list_sender 10 _ _ _ [JList [JStr "B"]]
                   (JList [JStr "B"]) eq_refl eq_refl eq_refl
                   (list_elem_of_here _ _) eq_refl)).
Defined.
